(** * GovExpense v3.0: the rules engine of [expense_calculator.py]

    A shallow embedding of the class [ExpenseCalculator] (per diem,
    accommodation, private-vehicle mileage, taxi cap, taxi meter and training
    meals) and the properties its specification states about it.

    Conventions of the embedding.
    - Python [int] is [Z].  Python [float] amounts (costs, distances, fares)
      are exact rationals [Q]: every constant of the source (6.5, 7.0, 8.5,
      10.5, 0.5, 3.0, ...) is a dyadic rational, and [min], [max] and the
      comparisons are exact on finite floats.  Rounding of float products and
      the values nan/inf of an input are outside the model; [float('inf')],
      which the source itself writes, is the constructor [PInf].  Where a
      property fixes a result that the rounding could change (a day count
      from the microseconds of a window, a lump sum at a manual rate, the
      words of a very large amount), it states the range in which the float
      computation gives the exact number.
    - Python [str] is [string]; the [Literal[...]] annotations of the source
      are not enforced at run time, so the functions take arbitrary strings.
    - A [dict] is a [gmap string _]; [d.get(k, v)] is [dict_get] and [d[k]],
      which raises [KeyError], is [dict_item] in the error monad [result].
    - A [datetime] is its position on the time line in microseconds, the
      resolution of the type; a [timedelta] is a number of microseconds.
    - The messages of [warnings] and [remark] are f-strings; they are kept as
      a message tag together with the values interpolated in the text. *)

From Stdlib Require Import ZArith QArith Qround Qminmax Lqa Lia.
From stdpp Require Import base strings gmap.

Open Scope Z_scope.

(** ** Fragments of Python the calculator uses *)
Module Py.

Inductive exn : Type :=
| KeyError (key : string)
| NameError (name : string).

(** A call either raises or returns. *)
Inductive result (A : Type) : Type :=
| Raise (e : exn)
| Ok (a : A).
Arguments Raise {A} e.
Arguments Ok {A} a.

Definition bind {A B : Type} (m : result A) (k : A -> result B) : result B :=
  match m with
  | Raise e => Raise e
  | Ok a => k a
  end.

(** [d.get(k, dflt)] *)
Definition dict_get {V : Type} (d : gmap string V) (k : string) (dflt : V) : V :=
  default dflt (d !! k).

(** [d[k]] *)
Definition dict_item {V : Type} (d : gmap string V) (k : string) : result V :=
  match d !! k with
  | Some v => Ok v
  | None => Raise (KeyError k)
  end.

(** Reading a name that no assignment in scope has bound. *)
Definition unbound_name {A : Type} (name : string) : result A :=
  Raise (NameError name).

(** [x < y] on numbers *)
Definition Qltb (x y : Q) : bool := negb (Qle_bool y x).

(** [min(a, b)]: the first argument unless the second is smaller. *)
Definition min (a b : Q) : Q := if Qltb b a then b else a.

(** [max(a, b)]: the first argument unless the second is greater. *)
Definition max (a b : Q) : Q := if Qltb a b then b else a.

(** A float that may be [float('inf')]. *)
Inductive xfloat : Type :=
| Fin (q : Q)
| PInf.

(** [min(a, limit)] where [limit] may be infinite. *)
Definition min_x (a : Q) (limit : xfloat) : Q :=
  match limit with
  | Fin l => min a l
  | PInf => a
  end.

End Py.
Import Py.

Notation "'let*' x ':=' m 'in' k" := (Py.bind m (fun x => k))
  (at level 10, x name, m at level 100, k at level 200).

(** ** The class [ExpenseCalculator] *)

(** *** Rate tables (class attributes) *)

Definition PER_DIEM_RATES : gmap string Z :=
  list_to_map [("C1-C8"%string, 240); ("C9-C11"%string, 270)].

(** [ACCOM_GENERAL["lump_sum"]] *)
Definition ACCOM_GENERAL_lump_sum : gmap string Z :=
  list_to_map [("C1-C8"%string, 800); ("C9-C11"%string, 1200)].

(** [ACCOM_GENERAL["actual"]] *)
Definition ACCOM_GENERAL_actual : gmap string (gmap string Z) :=
  list_to_map
    [("C1-C8"%string,
      list_to_map [("single"%string, 1500); ("double"%string, 850)]);
     ("C9-C11"%string,
      list_to_map [("single"%string, 2200); ("double"%string, 1200)])].

Definition ACCOM_TRAINING_PRIVATE : gmap string (gmap string Z) :=
  list_to_map
    [("C1-C8"%string,
      list_to_map [("single"%string, 1600); ("double"%string, 1000)]);
     ("C9-C11"%string,
      list_to_map [("single"%string, 2700); ("double"%string, 1500)])].

Definition TRAINING_RATES : gmap string (gmap string (gmap string Z)) :=
  list_to_map
    [("state"%string,
      list_to_map
        [("Type A"%string, list_to_map [("meal"%string, 400); ("snack"%string, 35)]);
         ("Type B"%string, list_to_map [("meal"%string, 200); ("snack"%string, 35)])]);
     ("private"%string,
      list_to_map
        [("Type A"%string, list_to_map [("meal"%string, 700); ("snack"%string, 50)]);
         ("Type B"%string, list_to_map [("meal"%string, 400); ("snack"%string, 50)])])].

(** The literal [{"single": 1_500, "double": 850}], default of the general
    ceiling lookup, and [{"single": 1_600, "double": 1_000}], default of the
    private-training one. *)
Definition general_default_ceiling_map : gmap string Z :=
  list_to_map [("single"%string, 1500); ("double"%string, 850)].

Definition private_default_ceiling_map : gmap string Z :=
  list_to_map [("single"%string, 1600); ("double"%string, 1000)].

(** *** Accommodation: [validate_accommodation] and its two helpers *)

(** The texts appended to [warnings]:
    - [WarnAttachReceipt]: the receipt and the folio must be attached;
    - [WarnExceedsCeiling]: the actual cost exceeds the total ceiling and is
      reimbursed up to it (general trips and private venues; both amounts
      are printed);
    - [WarnExceedsCeilingState]: the same at a state venue (only the total
      ceiling is printed);
    - [WarnStateVenue]: training at a state venue uses the general ceilings;
    - [WarnJuniorSingleRoom]: C1-C8 in a single room at a private venue needs
      a written justification. *)
Inductive Warning : Type :=
| WarnAttachReceipt
| WarnExceedsCeiling (actual_cost : Q) (total_ceiling : Z)
| WarnExceedsCeilingState (total_ceiling : Z)
| WarnStateVenue
| WarnJuniorSingleRoom.

(** The texts of [remark]. *)
Inductive Remark : Type :=
| RemVehicleSleep
| RemGeneralLumpSum (rate : Q) (nights : Z)
| RemGeneralActual (room_type : string) (ceiling : Z) (over_ceiling : bool)
| RemStateLumpSum (rate : Q)
| RemStateActual (ceiling : Z)
| RemPrivateLumpSum (rate : Z) (room_type : string)
| RemPrivateActual (room_type : string) (ceiling : Z) (over_ceiling : bool).

(** The returned dict.  A key that only some branches set is an [option]. *)
Record AccomResult : Type := {
  accom_type : string;
  accom_nights : Z;
  accom_rate_per_night : Q;
  accom_allowed_per_night : Q;
  accom_total_allowed : option Q;
  accom_total_ceiling : option Z;
  accom_actual_cost : option Q;
  accom_reimbursable_amount : Q;
  accom_is_approved : bool;
  accom_room_type : option string;
  accom_trip_type : string;
  accom_training_venue : option string;
  accom_warnings : list Warning;
  accom_remark : Remark
}.

(** The lump sum is the exact product [rate * nights].  The rates of the
    table and the rates the application offers are whole numbers, whose
    product Python computes exactly; a manual rate that is a float is
    multiplied in floating point, which gives the same number while the
    product is a whole number within [2 ^ 53]. *)
Definition _calc_general_accommodation
    (c_level expense_type : string) (nights : Z) (actual_cost : Q)
    (room_type : string) (manual_rate : Q) (warnings : list Warning)
    : result AccomResult :=
  if String.eqb expense_type "lump_sum" then
    let rate :=
      if Qltb 0 manual_rate then manual_rate
      else inject_Z (dict_get ACCOM_GENERAL_lump_sum c_level 800) in
    let reimbursable := (rate * inject_Z nights)%Q in
    Ok {| accom_type := "lump_sum";
          accom_nights := nights;
          accom_rate_per_night := rate;
          accom_allowed_per_night := rate;
          accom_total_allowed := Some reimbursable;
          accom_total_ceiling := None;
          accom_actual_cost := None;
          accom_reimbursable_amount := reimbursable;
          accom_is_approved := true;
          accom_room_type := None;
          accom_trip_type := "general";
          accom_training_venue := None;
          accom_warnings := warnings;
          accom_remark := RemGeneralLumpSum rate nights |}
  else
    (* --- Actual --- *)
    let ceiling_map :=
      dict_get ACCOM_GENERAL_actual c_level general_default_ceiling_map in
    let* single := dict_item ceiling_map "single" in
    let ceiling := dict_get ceiling_map room_type single in
    let total_ceiling := ceiling * nights in
    let reimbursable := Py.min actual_cost (inject_Z total_ceiling) in
    let is_approved := Qle_bool actual_cost (inject_Z total_ceiling) in
    let warnings := warnings ++ [WarnAttachReceipt] in
    let warnings :=
      if negb is_approved
      then warnings ++ [WarnExceedsCeiling actual_cost total_ceiling]
      else warnings in
    Ok {| accom_type := "actual";
          accom_nights := nights;
          accom_rate_per_night := inject_Z ceiling;
          accom_allowed_per_night := inject_Z ceiling;
          accom_total_allowed := None;
          accom_total_ceiling := Some total_ceiling;
          accom_actual_cost := Some actual_cost;
          accom_reimbursable_amount := reimbursable;
          accom_is_approved := is_approved;
          accom_room_type := Some room_type;
          accom_trip_type := "general";
          accom_training_venue := None;
          accom_warnings := warnings;
          accom_remark := RemGeneralActual room_type ceiling (negb is_approved) |}.

(** The lump sum at a state venue is the product of the general trip, with
    the same reading of a manual rate; at a private venue the rate is the
    whole number of the table. *)
Definition _calc_training_accommodation
    (c_level expense_type : string) (nights : Z) (actual_cost : Q)
    (room_type training_venue : string) (manual_rate : Q)
    (warnings : list Warning) : result AccomResult :=
  if String.eqb training_venue "state" then
    (* state venue: the general tables *)
    let warnings := warnings ++ [WarnStateVenue] in
    if String.eqb expense_type "lump_sum" then
      let rate :=
        if Qltb 0 manual_rate then manual_rate
        else inject_Z (dict_get ACCOM_GENERAL_lump_sum c_level 800) in
      let reimbursable := (rate * inject_Z nights)%Q in
      Ok {| accom_type := "lump_sum";
            accom_nights := nights;
            accom_rate_per_night := rate;
            accom_allowed_per_night := rate;
            accom_total_allowed := Some reimbursable;
            accom_total_ceiling := None;
            accom_actual_cost := None;
            accom_reimbursable_amount := reimbursable;
            accom_is_approved := true;
            accom_room_type := None;
            accom_trip_type := "training";
            accom_training_venue := Some "state"%string;
            accom_warnings := warnings;
            accom_remark := RemStateLumpSum rate |}
    else
      let ceiling_map :=
        dict_get ACCOM_GENERAL_actual c_level general_default_ceiling_map in
      let* single := dict_item ceiling_map "single" in
      let ceiling := dict_get ceiling_map room_type single in
      let total_ceiling := ceiling * nights in
      let reimbursable := Py.min actual_cost (inject_Z total_ceiling) in
      let is_approved := Qle_bool actual_cost (inject_Z total_ceiling) in
      let warnings := warnings ++ [WarnAttachReceipt] in
      let warnings :=
        if negb is_approved
        then warnings ++ [WarnExceedsCeilingState total_ceiling]
        else warnings in
      Ok {| accom_type := "actual";
            accom_nights := nights;
            accom_rate_per_night := inject_Z ceiling;
            accom_allowed_per_night := inject_Z ceiling;
            accom_total_allowed := None;
            accom_total_ceiling := Some total_ceiling;
            accom_actual_cost := Some actual_cost;
            accom_reimbursable_amount := reimbursable;
            accom_is_approved := is_approved;
            accom_room_type := Some room_type;
            accom_trip_type := "training";
            accom_training_venue := Some "state"%string;
            accom_warnings := warnings;
            accom_remark := RemStateActual ceiling |}
  else
    (* private venue: the dedicated table *)
    let ceiling_map :=
      dict_get ACCOM_TRAINING_PRIVATE c_level private_default_ceiling_map in
    let* double := dict_item ceiling_map "double" in
    let ceiling := dict_get ceiling_map room_type double in
    let warnings :=
      if String.eqb c_level "C1-C8" && String.eqb room_type "single"
      then warnings ++ [WarnJuniorSingleRoom]
      else warnings in
    let warnings := warnings ++ [WarnAttachReceipt] in
    if String.eqb expense_type "lump_sum" then
      let rate := ceiling in
      let reimbursable := rate * nights in
      Ok {| accom_type := "lump_sum";
            accom_nights := nights;
            accom_rate_per_night := inject_Z rate;
            accom_allowed_per_night := inject_Z rate;
            accom_total_allowed := Some (inject_Z reimbursable);
            accom_total_ceiling := None;
            accom_actual_cost := None;
            accom_reimbursable_amount := inject_Z reimbursable;
            accom_is_approved := true;
            accom_room_type := Some room_type;
            accom_trip_type := "training";
            accom_training_venue := Some "private"%string;
            accom_warnings := warnings;
            accom_remark := RemPrivateLumpSum rate room_type |}
    else
      (* --- Actual --- *)
      let total_ceiling := ceiling * nights in
      let reimbursable := Py.min actual_cost (inject_Z total_ceiling) in
      let is_approved := Qle_bool actual_cost (inject_Z total_ceiling) in
      let warnings :=
        if negb is_approved
        then warnings ++ [WarnExceedsCeiling actual_cost total_ceiling]
        else warnings in
      Ok {| accom_type := "actual";
            accom_nights := nights;
            accom_rate_per_night := inject_Z ceiling;
            accom_allowed_per_night := inject_Z ceiling;
            accom_total_allowed := None;
            accom_total_ceiling := Some total_ceiling;
            accom_actual_cost := Some actual_cost;
            accom_reimbursable_amount := reimbursable;
            accom_is_approved := is_approved;
            accom_room_type := Some room_type;
            accom_trip_type := "training";
            accom_training_venue := Some "private"%string;
            accom_warnings := warnings;
            accom_remark := RemPrivateActual room_type ceiling (negb is_approved) |}.

Definition validate_accommodation
    (c_level expense_type : string) (nights : Z) (actual_cost : Q)
    (room_type : string) (is_vehicle_sleep : bool) (manual_rate : Q)
    (trip_type training_venue : string) : result AccomResult :=
  let warnings : list Warning := [] in
  if is_vehicle_sleep then
    Ok {| accom_type := "vehicle_sleep";
          accom_nights := 0;
          accom_rate_per_night := 0;
          accom_allowed_per_night := 0;
          accom_total_allowed := Some 0%Q;
          accom_total_ceiling := None;
          accom_actual_cost := None;
          accom_reimbursable_amount := 0;
          accom_is_approved := true;
          accom_room_type := None;
          accom_trip_type := trip_type;
          accom_training_venue := None;
          accom_warnings := [];
          accom_remark := RemVehicleSleep |}
  else if String.eqb trip_type "general" then
    _calc_general_accommodation
      c_level expense_type nights actual_cost room_type manual_rate warnings
  else
    _calc_training_accommodation
      c_level expense_type nights actual_cost room_type training_venue
      manual_rate warnings.

(** *** Per diem: [calculate_per_diem] *)

(** [datetime] and [timedelta] in microseconds. *)
Definition datetime : Type := Z.
Definition timedelta : Type := Z.

(** [timedelta.total_seconds()], by its exact value.  The method returns the
    nearest float; for a duration below 2^34 seconds that float is on the
    same side of every whole second as the exact value, which is all the
    comparisons of [calculate_per_diem] look at.  The properties that fix a
    day count from the microseconds carry that bound. *)
Definition total_seconds (d : timedelta) : Q := d # 1000000.

(** [x // y] and [x % y] on floats, for a positive [y]. *)
Definition floordiv (x y : Q) : Q := inject_Z (Qfloor (x / y)).
Definition pymod (x y : Q) : Q := x - y * floordiv x y.

(** [int(x)]: truncation towards zero. *)
Definition int_of_float (x : Q) : Z :=
  if Qle_bool 0 x then Qfloor x else Qceiling x.

Record PerDiemResult : Type := {
  days_count : Q;
  rate_per_day : Z;
  base_amount : Q;
  provided_meals : Z;
  deduction : Q;
  net_amount : Q
}.

Definition calculate_per_diem
    (start_time end_time : datetime) (is_overnight : bool)
    (c_level : string) (provided_meals : Z) : PerDiemResult :=
  let duration : timedelta := end_time - start_time in
  let total_seconds := total_seconds duration in
  let days_count : Q :=
    if is_overnight then
      let days := int_of_float (floordiv total_seconds (inject_Z (24 * 3600))) in
      let remainder_seconds := pymod total_seconds (inject_Z (24 * 3600)) in
      let days :=
        if Qltb (inject_Z (12 * 3600)) remainder_seconds then days + 1
        else days in
      inject_Z days
    else
      if Qltb (inject_Z (12 * 3600)) total_seconds then 1.0%Q
      else if Qltb (inject_Z (6 * 3600)) total_seconds then 0.5%Q
      else 0.0%Q in
  let rate := dict_get PER_DIEM_RATES c_level 240 in
  let total_allowance := (days_count * inject_Z rate)%Q in
  let deduction : Q :=
    if 0 <? provided_meals
    then (inject_Z rate / 3 * inject_Z provided_meals)%Q
    else 0.0%Q in
  let total_allowance :=
    if 0 <? provided_meals
    then Py.max 0 (total_allowance - deduction)
    else total_allowance in
  {| days_count := days_count;
     rate_per_day := rate;
     base_amount := (days_count * inject_Z rate)%Q;
     provided_meals := provided_meals;
     deduction := deduction;
     net_amount := total_allowance |}.

Arguments calculate_per_diem (start_time end_time)%_Z is_overnight
  c_level%_string provided_meals%_Z.
Arguments total_seconds d%_Z.

(** *** Private vehicle: [calculate_transportation] *)

Record TransportResult : Type := {
  transport_type : string;
  transport_distance_km : Q;
  transport_rate : Z;
  transport_reimbursable_amount : Q
}.

Definition calculate_transportation
    (vehicle_type : string) (distance_km : Q) : TransportResult :=
  let rate := if String.eqb vehicle_type "private_car" then 4 else 2 in
  let amount := (distance_km * inject_Z rate)%Q in
  {| transport_type := vehicle_type;
     transport_distance_km := distance_km;
     transport_rate := rate;
     transport_reimbursable_amount := amount |}.

(** *** Taxi route cap: [validate_taxi] *)

(** The value under ["limit"]: the number, or the text ["Actual"]. *)
Inductive LimitShown : Type :=
| LimitAmount (limit : Q)
| LimitActual.

Record TaxiResult : Type := {
  taxi_type : string;
  taxi_route_type : string;
  taxi_actual_cost : Q;
  taxi_limit : LimitShown;
  taxi_reimbursable_amount : Q
}.

Definition validate_taxi (route_type : string) (actual_cost : Q) : TaxiResult :=
  let limit :=
    if String.eqb route_type "cross_bkk" then Fin 600
    else if String.eqb route_type "cross_other" then Fin 500
    else PInf in
  let reimbursable := min_x actual_cost limit in
  {| taxi_type := "taxi";
     taxi_route_type := route_type;
     taxi_actual_cost := actual_cost;
     taxi_limit := match limit with Fin l => LimitAmount l | PInf => LimitActual end;
     taxi_reimbursable_amount := reimbursable |}.

(** *** Taxi meter: [calculate_taxi_meter] *)

Record TaxiMeterResult : Type := {
  meter_distance_km : Q;
  meter_fare_distance : Q;
  meter_fare_traffic : Q;
  meter_surcharges : Z;
  meter_total_fare : Q
}.

(** Step 1 of the body: the local [fare] once the distance ladder is done. *)
Definition taxi_meter_ladder (distance_km : Q) : Q :=
  let fare := 35.0%Q in
  let remaining_dist := (distance_km - 1)%Q in
  if Qle_bool remaining_dist 0 then 35.0%Q
  else
    let dist_step := Py.min remaining_dist 9 in
    let fare := (fare + dist_step * 6.5)%Q in
    let remaining_dist := (remaining_dist - dist_step)%Q in
    if Qltb 0 remaining_dist then
      let dist_step := Py.min remaining_dist 10 in
      let fare := (fare + dist_step * 7.0)%Q in
      let remaining_dist := (remaining_dist - dist_step)%Q in
      if Qltb 0 remaining_dist then
        let dist_step := Py.min remaining_dist 20 in
        let fare := (fare + dist_step * 8.0)%Q in
        let remaining_dist := (remaining_dist - dist_step)%Q in
        if Qltb 0 remaining_dist then
          let dist_step := Py.min remaining_dist 20 in
          let fare := (fare + dist_step * 8.5)%Q in
          let remaining_dist := (remaining_dist - dist_step)%Q in
          if Qltb 0 remaining_dist then
            let dist_step := Py.min remaining_dist 20 in
            let fare := (fare + dist_step * 9.0)%Q in
            let remaining_dist := (remaining_dist - dist_step)%Q in
            if Qltb 0 remaining_dist then (fare + remaining_dist * 10.5)%Q
            else fare
          else fare
        else fare
      else fare
    else fare.

(** Steps 2 and 3: the locals [fare], [surcharges] and [total_fare] as they
    stand when the [return] statement is reached. *)
Record TaxiMeterLocals : Type := {
  local_fare : Q;
  local_surcharges : Z;
  local_total_fare : Q
}.

Definition taxi_meter_locals
    (distance_km : Q) (traffic_minutes : Z)
    (booking_fee airport_surcharge : bool) : TaxiMeterLocals :=
  let fare := taxi_meter_ladder distance_km in
  let fare := (fare + inject_Z traffic_minutes * 3.0)%Q in
  let surcharges := 0 in
  let surcharges := if booking_fee then surcharges + 20 else surcharges in
  let surcharges := if airport_surcharge then surcharges + 50 else surcharges in
  let total_fare := (fare + inject_Z surcharges)%Q in
  {| local_fare := fare;
     local_surcharges := surcharges;
     local_total_fare := total_fare |}.

(** The [return] builds the dict key by key; the second value reads the name
    [fare_distance], which the body never assigns. *)
Definition calculate_taxi_meter
    (distance_km : Q) (traffic_minutes : Z)
    (booking_fee airport_surcharge : bool) : result TaxiMeterResult :=
  let locals :=
    taxi_meter_locals distance_km traffic_minutes booking_fee airport_surcharge in
  let* fare_distance := unbound_name "fare_distance" in
  Ok {| meter_distance_km := distance_km;
        meter_fare_distance := fare_distance;
        meter_fare_traffic := (inject_Z traffic_minutes * 3.0)%Q;
        meter_surcharges := local_surcharges locals;
        meter_total_fare := local_total_fare locals |}.

(** *** Training meals: [calculate_training_meal_allowance] *)

Record MealResult : Type := {
  meal_training_type : string;
  meal_venue : string;
  meal_rate : Z;
  snack_rate : Z;
  meal_count : Z;
  snack_count : Z;
  meal_total : Z;
  snack_total : Z;
  grand_total : Z
}.

Definition calculate_training_meal_allowance
    (c_level venue : string) (meal_count snack_count : Z) : result MealResult :=
  let training_type : string :=
    if String.eqb c_level "C9-C11" then "Type A" else "Type B" in
  let* by_type := dict_item TRAINING_RATES venue in
  let* rates := dict_item by_type training_type in
  let* meal := dict_item rates "meal" in
  let meal_total := meal_count * meal in
  let* snack := dict_item rates "snack" in
  let snack_total := snack_count * snack in
  let grand_total := meal_total + snack_total in
  Ok {| meal_training_type := training_type;
        meal_venue := venue;
        meal_rate := meal;
        snack_rate := snack;
        meal_count := meal_count;
        snack_count := snack_count;
        meal_total := meal_total;
        snack_total := snack_total;
        grand_total := grand_total |}.

(** ** The values the [Literal[...]] annotations allow *)

Inductive Grade : Type := Junior | Senior.
Inductive RoomType : Type := Single | Double.
Inductive Venue : Type := StateFacility | PrivateFacility.

Definition grade_key (g : Grade) : string :=
  match g with Junior => "C1-C8" | Senior => "C9-C11" end.

Definition room_key (r : RoomType) : string :=
  match r with Single => "single" | Double => "double" end.

Definition venue_key (v : Venue) : string :=
  match v with StateFacility => "state" | PrivateFacility => "private" end.

(** The three paths of [validate_accommodation] that can reach an
    actual-cost computation, with the arguments that select them. *)
Inductive AccomPath : Type := General | TrainingState | TrainingPrivate.

Definition path_trip_type (p : AccomPath) : string :=
  match p with General => "general" | _ => "training" end.

Definition path_venue (p : AccomPath) : string :=
  match p with TrainingState => "state" | _ => "private" end.

(** ** Vocabulary of the properties *)

(** What a ceiling map of the tables offers: both room keys, no negative
    amount. *)
Definition ceiling_map_ok (m : gmap string Z) : Prop :=
  map_Forall (fun _ v => 0 <= v) m
  /\ is_Some (m !! "single"%string) /\ is_Some (m !! "double"%string).

(** The per-night ceilings as the specification tabulates them, by grade and
    room type. *)
Definition general_actual_ceiling (g : Grade) (r : RoomType) : Z :=
  match g, r with
  | Junior, Single => 1500
  | Junior, Double => 850
  | Senior, Single => 2200
  | Senior, Double => 1200
  end.

Definition private_training_ceiling (g : Grade) (r : RoomType) : Z :=
  match g, r with
  | Junior, Single => 1600
  | Junior, Double => 1000
  | Senior, Single => 2700
  | Senior, Double => 1500
  end.

Definition path_ceiling (p : AccomPath) (g : Grade) (r : RoomType) : Z :=
  match p with
  | TrainingPrivate => private_training_ceiling g r
  | General | TrainingState => general_actual_ceiling g r
  end.

Definition is_exceeds_ceiling (w : Warning) : bool :=
  match w with
  | WarnExceedsCeiling _ _ | WarnExceedsCeilingState _ => true
  | _ => false
  end.

(** The day count of an overnight trip of [T] seconds, in the words of the
    regulation: whole days, and one more when over 12 hours remain. *)
Definition overnight_days (T : Q) : Z :=
  let days := Qfloor (T / 86400) in
  let remainder := (T - 86400 * inject_Z days)%Q in
  if Qltb 43200 remainder then days + 1 else days.

(** The day count of a day trip of [T] seconds. *)
Definition day_trip_days (T : Q) : Q :=
  if Qltb 43200 T then 1%Q
  else if Qltb 21600 T then (1 # 2)%Q
  else 0%Q.

(** One second, one hour and one day in the unit of [datetime]. *)
Definition second_us : Z := 1000000.
Definition hour_us : Z := 3600 * second_us.
Definition day_us : Z := 24 * hour_us.

(** The metered tariff in the words of the regulation: the part of the
    distance past the first kilometre that falls in the band starting at
    [from] and [len] kilometres long, and the fare of a distance. *)
Definition band_portion (remaining from len : Q) : Q :=
  Qmin (Qmax (remaining - from) 0) len.

Definition tariff_ladder (distance_km : Q) : Q :=
  let remaining := (distance_km - 1)%Q in
  (35
   + band_portion remaining 0 9 * 6.5
   + band_portion remaining 9 10 * 7.0
   + band_portion remaining 19 20 * 8.0
   + band_portion remaining 39 20 * 8.5
   + band_portion remaining 59 20 * 9.0
   + Qmax (remaining - 79) 0 * 10.5)%Q.

Definition flat_surcharges (booking_fee airport_surcharge : bool) : Q :=
  ((if booking_fee then 20 else 0) + (if airport_surcharge then 50 else 0))%Q.

(** ** [bahttext_utils.py]: an amount in Thai words

    Conventions of this part.
    - The argument of [bahttext] is a number given by its exact value (every
      finite float is a rational; an [int] is converted to a float by the
      formatting, which is exact up to 2^53), or anything that is not a
      number.  Formatting a float with two decimals rounds its exact value to
      the nearest hundredth, a tie going to the even one; nan and inf are
      outside the model.
    - [_convert_to_thai_num] is only ever given the two halves of such a
      formatted amount and slices of them, so its argument is a list of
      decimal digits.
    - A text is a [string] holding the UTF-8 bytes of the Python [str];
      concatenation and comparison of texts are the same on both.
    - A subscript of the two word lists that is out of range raises
      [IndexError]; here it is [None]. *)

(** A decimal digit, the characters of the strings [_convert_to_thai_num] is
    given: the two halves of an amount formatted with two decimals. *)
Inductive digit : Type := dig0 | dig1 | dig2 | dig3 | dig4 | dig5 | dig6 | dig7 | dig8 | dig9.

(** [int(digit)] *)
Definition digit_value (d : digit) : nat :=
  match d with
  | dig0 => 0 | dig1 => 1 | dig2 => 2 | dig3 => 3 | dig4 => 4
  | dig5 => 5 | dig6 => 6 | dig7 => 7 | dig8 => 8 | dig9 => 9
  end%nat.

(** The digit that prints a number below ten. *)
Definition digit_of (n : N) : digit :=
  match n with
  | 0 => dig0 | 1 => dig1 | 2 => dig2 | 3 => dig3 | 4 => dig4
  | 5 => dig5 | 6 => dig6 | 7 => dig7 | 8 => dig8 | _ => dig9
  end%N.

(** [int(number_str)] on a string of digits. *)
Definition int_of_digits (number_str : list digit) : N :=
  fold_left (fun acc d => (10 * acc + N.of_nat (digit_value d))%N) number_str 0%N.

(** The decimal digits of a whole number, without leading zero; ["0"] for
    zero.  A number has no more digits than bits. *)
Fixpoint digits_from (fuel : nat) (n : N) (printed : list digit) : list digit :=
  let printed := digit_of (n mod 10) :: printed in
  match fuel with
  | O => printed
  | S fuel =>
      if (n / 10 =? 0)%N then printed else digits_from fuel (n / 10) printed
  end.

Definition digits_of (n : N) : list digit :=
  digits_from (N.to_nat (N.size n)) n [].

(** Rounding to the nearest whole number, a tie going to the even one: the
    rounding of a float printed with a fixed number of decimals. *)
Definition round_half_even (x : Q) : Z :=
  let below := Qfloor x in
  let rest := (x - inject_Z below)%Q in
  if Qltb rest (1 # 2) then below
  else if Qltb (1 # 2) rest then below + 1
  else if Z.even below then below else below + 1.

(** ["{:.2f}".format(number).split('.')] for a positive number: the digits of
    the baht and the two digits of the satang.  This is the formatting of a
    finite float, and of an [int] that a float holds exactly, as every [int]
    up to [2 ^ 53]; a larger [int] is rounded to a float before it is
    formatted, and one from [2 ^ 1024] on raises [OverflowError]. *)
Definition format_2f (number : Q) : list digit * list digit :=
  let hundredths := Z.to_N (round_half_even (number * 100)) in
  (digits_of (hundredths / 100),
   [digit_of (hundredths mod 100 / 10); digit_of (hundredths mod 10)]).

Definition thai_nums : list string :=
  ["ศูนย์"; "หนึ่ง"; "สอง"; "สาม"; "สี่"; "ห้า"; "หก"; "เจ็ด"; "แปด"; "เก้า"]%string.

Definition unit_names : list string :=
  [""; "สิบ"; "ร้อย"; "พัน"; "หมื่น"; "แสน"; "ล้าน"]%string.

(** One turn of the loop over the digits; [None] is an [IndexError]. *)
Definition spell_digit
    (length : nat) (result : string) (i : nat) (digit : digit) : option string :=
  let d := digit_value digit in
  let position := (length - i - 1)%nat in
  if (d =? 0)%nat then Some result
  else
    match
      (if (position =? 1)%nat && (d =? 1)%nat then Some result
       else if (position =? 1)%nat && (d =? 2)%nat then Some (result +:+ "ยี่")
       else if (position =? 0)%nat && (d =? 1)%nat && (1 <? length)%nat
            then Some (result +:+ "เอ็ด")
       else match thai_nums !! d with
            | Some word => Some (result +:+ word)
            | None => None
            end)
    with
    | None => None
    | Some result =>
        if (position =? 1)%nat && (d =? 1)%nat then Some (result +:+ "สิบ")
        else if (position =? 1)%nat then Some (result +:+ "สิบ")
        else match unit_names !! position with
             | Some unit => Some (result +:+ unit)
             | None => None
             end
    end.

(** [for i, digit in enumerate(number_str)], from index [i] on. *)
Fixpoint spell_digits
    (length : nat) (result : string) (i : nat) (rest : list digit)
    : option string :=
  match rest with
  | [] => Some result
  | digit :: rest =>
      match spell_digit length result i digit with
      | None => None
      | Some result => spell_digits length result (S i) rest
      end
  end.

(** [_convert_to_thai_num], with [fuel] bounding the depth of the recursion
    on the digits above the last six.  Python reads the digits with [int],
    which refuses more than 4300 of them, and bounds the depth of its calls;
    both are far from the at most 309 digits of a formatted float. *)
Fixpoint convert_to_thai_num_fuel (fuel : nat) (number_str : list digit)
    : option string :=
  match number_str with
  | [] => Some EmptyString
  | _ =>
      if (int_of_digits number_str =? 0)%N then Some EmptyString
      else
        let length := length number_str in
        if (7 <? length)%nat then
          match fuel with
          | O => None
          | S fuel =>
              let overflow_part := take (length - 6) number_str in
              let main_part := drop (length - 6) number_str in
              match convert_to_thai_num_fuel fuel overflow_part,
                    convert_to_thai_num_fuel fuel main_part with
              | Some millions, Some below =>
                  Some ((millions +:+ "ล้าน") +:+ below)
              | _, _ => None
              end
          end
        else spell_digits length "" 0 number_str
  end.

Definition _convert_to_thai_num (number_str : list digit) : option string :=
  convert_to_thai_num_fuel (length number_str) number_str.

(** The argument of [bahttext]: a number, by its exact value, or anything
    else. *)
Inductive amount_arg : Type :=
| Number (number : Q)
| NotANumber.

Definition nonempty (s : string) : bool :=
  match s with EmptyString => false | _ => true end.

(** The body of [bahttext] below its two guards, for a number that is not
    negative. *)
Definition bahttext_nonneg (number : Q) : option string :=
  if Qeq_bool number 0 then Some "ศูนย์บาทถ้วน"%string
  else
    let '(baht_part, satang_part) := format_2f number in
    match _convert_to_thai_num baht_part, _convert_to_thai_num satang_part with
    | Some baht_text, Some satang_text =>
        let result := EmptyString in
        let result :=
          if nonempty baht_text then result +:+ (baht_text +:+ "บาท")
          else result in
        let result :=
          if nonempty satang_text && negb (String.eqb satang_text "ศูนย์")
          then result +:+ (satang_text +:+ "สตางค์")
          else result +:+ "ถ้วน" in
        Some result
    | _, _ => None
    end.

(** [bahttext]; the call on [-number] meets a positive number, so it goes
    through the guards to the body. *)
Definition bahttext (arg : amount_arg) : option string :=
  match arg with
  | NotANumber => Some "จำนวนเงินไม่ถูกต้อง"%string
  | Number number =>
      if Qltb number 0 then
        match bahttext_nonneg (- number) with
        | Some text => Some ("ลบ" +:+ text)
        | None => None
        end
      else bahttext_nonneg number
  end.

(** ** [pdf_generator.py]: the expenses certified without a receipt *)

(** An entry of [data["expenses"]["transportation"]], by the keys
    [_get_no_receipt_items] reads; the two keys it reads with [get] may be
    missing. *)
Record TransportItem : Type := {
  item_type : string;
  item_type_display : option string;
  item_route_desc : option string;
  item_reimbursable_amount : Q
}.

(** The part of [data] the function reads: the end of the trip, the
    transport entries and the accommodation result. *)
Record TransactionData : Type := {
  trip_end_time : string;
  expenses_transportation : list TransportItem;
  expenses_accommodation : AccomResult
}.

(** The text of ["description"]: a transport entry with its display name
    and route, or the lump-sum accommodation with its nights. *)
Inductive CertifiedExpense : Type :=
| CertifiedTransport (type_display route_desc : string)
| CertifiedLumpSumStay (nights : Z).

Record CertificateItem : Type := {
  cert_date : string;
  cert_description : CertifiedExpense;
  cert_amount : Q;
  cert_remark : string
}.

Definition _get_no_receipt_items (data : TransactionData) : list CertificateItem :=
  let items : list CertificateItem := [] in
  let items :=
    fold_left
      (fun items trans =>
         if String.eqb (item_type trans) "taxi"
            || String.eqb (item_type trans) "motorcycle"
         then
           items
           ++ [{| cert_date := trip_end_time data;
                  cert_description :=
                    CertifiedTransport
                      (default (item_type trans) (item_type_display trans))
                      (default EmptyString (item_route_desc trans));
                  cert_amount := item_reimbursable_amount trans;
                  cert_remark := EmptyString |}]
         else items)
      (expenses_transportation data) items in
  let accom := expenses_accommodation data in
  if String.eqb (accom_type accom) "lump_sum" then
    items
    ++ [{| cert_date := trip_end_time data;
           cert_description := CertifiedLumpSumStay (accom_nights accom);
           cert_amount := accom_reimbursable_amount accom;
           cert_remark := EmptyString |}]
  else items.

(** The transport entries that go on the certificate. *)
Definition without_receipt (trans : TransportItem) : bool :=
  String.eqb (item_type trans) "taxi" || String.eqb (item_type trans) "motorcycle".

(** The certificate items that are a stay. *)
Definition certifies_stay (item : CertificateItem) : bool :=
  match cert_description item with
  | CertifiedLumpSumStay _ => true
  | CertifiedTransport _ _ => false
  end.

(** ** Vocabulary of the further properties *)

(** The ceiling a general or state-venue lookup ends with, for any strings:
    the C9-C11 map only for that key, the double amount only for the key
    "double". *)
Definition general_ceiling_of (c_level room_type : string) : Z :=
  if String.eqb c_level "C9-C11"
  then (if String.eqb room_type "double" then 1200 else 2200)
  else (if String.eqb room_type "double" then 850 else 1500).

(** The same at a private venue, where the single amount is only for the key
    "single". *)
Definition private_ceiling_of (c_level room_type : string) : Z :=
  if String.eqb c_level "C9-C11"
  then (if String.eqb room_type "single" then 2700 else 1500)
  else (if String.eqb room_type "single" then 1600 else 1000).

(** The wording a state venue gives to a warning of a general trip. *)
Definition state_wording (w : Warning) : Warning :=
  match w with
  | WarnExceedsCeiling _ total_ceiling => WarnExceedsCeilingState total_ceiling
  | _ => w
  end.

(** The amounts of an accommodation result, without its texts. *)
Definition accom_amounts (res : AccomResult)
    : string * Z * Q * Q * option Q * option Z * option Q * Q * bool :=
  (accom_type res, accom_nights res, accom_rate_per_night res,
   accom_allowed_per_night res, accom_total_allowed res,
   accom_total_ceiling res, accom_actual_cost res,
   accom_reimbursable_amount res, accom_is_approved res).

(** A text that begins with a full Thai letter other than the first letter
    of the word for zero; every text the speller builds is such a text or
    empty. *)
Definition spelled (text : string) : bool :=
  match text with
  | String a (String b (String c _)) =>
      negb (String.eqb (String a (String b (String c EmptyString))) "ศ")
  | _ => false
  end.

Definition all_zero (number_str : list digit) : bool :=
  forallb (fun d => Nat.eqb (digit_value d) 0) number_str.

(** The value of a finite float: a whole number of at most 53 bits times a
    power of two within the exponent range.  Every [int] up to [2 ^ 53] is
    such a value, and it is for these values that formatting with two
    decimals rounds the number itself. *)
Definition binary64 (x : Q) : Prop :=
  exists m e : Z,
    Z.abs m < 2 ^ 53 /\ -1074 <= e <= 971 /\ (x == inject_Z m * Qpower 2 e)%Q.

(** The longest string of digits [bahttext] gives to [_convert_to_thai_num]:
    the baht of the largest finite float.  [int] reads that many digits, and
    the recursion on the millions is some fifty calls deep. *)
Definition longest_amount : nat := 309.

(** ** Python helpers: comparisons, [min] and [max] *)

Lemma Qltb_true (x y : Q) : Qltb x y = true <-> (x < y)%Q.
Proof.
  unfold Qltb. rewrite negb_true_iff.
  destruct (Qle_bool y x) eqn:E.
  - apply Qle_bool_iff in E. split; [discriminate | intros H; lra].
  - split; [intros _ | reflexivity].
    apply Qnot_le_lt. intros H. apply Qle_bool_iff in H. congruence.
Qed.

Lemma Qltb_false (x y : Q) : Qltb x y = false <-> (y <= x)%Q.
Proof.
  unfold Qltb. rewrite negb_false_iff. apply Qle_bool_iff.
Qed.

Lemma Qle_bool_false (x y : Q) : Qle_bool x y = false <-> (y < x)%Q.
Proof.
  rewrite <- Qltb_true. unfold Qltb. destruct (Qle_bool x y); simpl; intuition congruence.
Qed.

Lemma py_min_Qmin (a b : Q) : (Py.min a b == Qmin a b)%Q.
Proof.
  unfold Py.min. destruct (Qltb b a) eqn:E.
  - apply Qltb_true in E. symmetry. apply Q.min_r. lra.
  - apply Qltb_false in E. symmetry. apply Q.min_l. exact E.
Qed.

Lemma py_max_Qmax (a b : Q) : (Py.max a b == Qmax a b)%Q.
Proof.
  unfold Py.max. destruct (Qltb a b) eqn:E.
  - apply Qltb_true in E. symmetry. apply Q.max_r. lra.
  - apply Qltb_false in E. symmetry. apply Q.max_l. exact E.
Qed.

Lemma py_min_le_l (a b : Q) : (Py.min a b <= a)%Q.
Proof. rewrite py_min_Qmin. apply Q.le_min_l. Qed.

Lemma py_min_le_r (a b : Q) : (Py.min a b <= b)%Q.
Proof. rewrite py_min_Qmin. apply Q.le_min_r. Qed.

Lemma py_min_glb (a b c : Q) : (c <= a -> c <= b -> c <= Py.min a b)%Q.
Proof. intros Ha Hb. unfold Py.min. destruct (Qltb b a); assumption. Qed.

Lemma py_max_lb (a b : Q) : (a <= Py.max a b)%Q.
Proof. rewrite py_max_Qmax. apply Q.le_max_l. Qed.

(** ** The rate tables, looked up *)

(** A dict literal, entry by entry. *)
Ltac map_Forall_literal tac :=
  repeat (apply map_Forall_insert_2; [tac |]); apply map_Forall_empty.

Lemma ceiling_map_ok_literal (s d : Z) :
  0 <= s -> 0 <= d ->
  ceiling_map_ok (list_to_map [("single"%string, s); ("double"%string, d)]).
Proof.
  intros Hs Hd. repeat split.
  - simpl. map_Forall_literal assumption.
  - exists s. reflexivity.
  - exists d. reflexivity.
Qed.

Lemma ACCOM_GENERAL_actual_ok : map_Forall (fun _ m => ceiling_map_ok m) ACCOM_GENERAL_actual.
Proof.
  unfold ACCOM_GENERAL_actual, list_to_map at 1. simpl foldr.
  map_Forall_literal ltac:(apply ceiling_map_ok_literal; lia).
Qed.

Lemma ACCOM_TRAINING_PRIVATE_ok : map_Forall (fun _ m => ceiling_map_ok m) ACCOM_TRAINING_PRIVATE.
Proof.
  unfold ACCOM_TRAINING_PRIVATE, list_to_map at 1. simpl foldr.
  map_Forall_literal ltac:(apply ceiling_map_ok_literal; lia).
Qed.

Lemma dict_get_Forall {V : Type} (P : V -> Prop) (m : gmap string V) (k : string) (d : V) :
  map_Forall (fun _ v => P v) m -> P d -> P (dict_get m k d).
Proof.
  intros Hm Hd. unfold dict_get.
  destruct (m !! k) as [v|] eqn:E; simpl; [| exact Hd].
  exact (Hm k v E).
Qed.

Lemma general_ceiling_map_ok (c_level : string) :
  ceiling_map_ok (dict_get ACCOM_GENERAL_actual c_level general_default_ceiling_map).
Proof.
  apply (dict_get_Forall ceiling_map_ok).
  - exact ACCOM_GENERAL_actual_ok.
  - apply ceiling_map_ok_literal; lia.
Qed.

Lemma private_ceiling_map_ok (c_level : string) :
  ceiling_map_ok (dict_get ACCOM_TRAINING_PRIVATE c_level private_default_ceiling_map).
Proof.
  apply (dict_get_Forall ceiling_map_ok).
  - exact ACCOM_TRAINING_PRIVATE_ok.
  - apply ceiling_map_ok_literal; lia.
Qed.

Lemma lump_sum_rate_nonneg (c_level : string) :
  0 <= dict_get ACCOM_GENERAL_lump_sum c_level 800.
Proof.
  apply (dict_get_Forall (fun v => 0 <= v)); [| lia].
  unfold ACCOM_GENERAL_lump_sum, list_to_map. simpl foldr.
  map_Forall_literal lia.
Qed.

Lemma per_diem_rate_nonneg (c_level : string) :
  0 <= dict_get PER_DIEM_RATES c_level 240.
Proof.
  apply (dict_get_Forall (fun v => 0 <= v)); [| lia].
  unfold PER_DIEM_RATES, list_to_map. simpl foldr.
  map_Forall_literal lia.
Qed.

(** In a ceiling map both [m["single"]] and [m["double"]] return, and every
    [m.get(room_type, ...)] with such a default is a non-negative amount. *)
Lemma ceiling_map_item (m : gmap string Z) (k : string) :
  ceiling_map_ok m -> k = "single"%string \/ k = "double"%string ->
  exists v, dict_item m k = Ok v /\ 0 <= v
            /\ forall room_type, 0 <= dict_get m room_type v.
Proof.
  intros (Hall & [s Hs] & [d Hd]) Hk. unfold dict_item.
  assert (Hv : exists v, m !! k = Some v).
  { destruct Hk; subst k; eauto. }
  destruct Hv as [v Hv]. rewrite Hv. exists v.
  assert (0 <= v) by exact (Hall k v Hv).
  repeat split; [assumption |].
  intros room_type. apply (dict_get_Forall (fun v => 0 <= v)); assumption.
Qed.

(** The lookups at the grades and room types of the annotations. *)
Lemma general_ceiling_lookup (g : Grade) (r : RoomType) :
  exists single,
    dict_item (dict_get ACCOM_GENERAL_actual (grade_key g) general_default_ceiling_map)
      "single" = Ok single
    /\ dict_get (dict_get ACCOM_GENERAL_actual (grade_key g) general_default_ceiling_map)
         (room_key r) single = general_actual_ceiling g r.
Proof. destruct g, r; eexists; split; reflexivity. Qed.

Lemma private_ceiling_lookup (g : Grade) (r : RoomType) :
  exists double,
    dict_item (dict_get ACCOM_TRAINING_PRIVATE (grade_key g) private_default_ceiling_map)
      "double" = Ok double
    /\ dict_get (dict_get ACCOM_TRAINING_PRIVATE (grade_key g) private_default_ceiling_map)
         (room_key r) double = private_training_ceiling g r.
Proof. destruct g, r; eexists; split; reflexivity. Qed.


(** ** Per diem: the day count *)

Lemma int_of_float_inject_Z (z : Z) : int_of_float (inject_Z z) = z.
Proof.
  unfold int_of_float. destruct (Qle_bool 0 (inject_Z z)).
  - apply Qfloor_Z.
  - apply Qceiling_Z.
Qed.

(** The field [days_count] depends on the window and the overnight flag only. *)
Lemma days_count_overnight (start_time end_time : datetime) (c_level : string) (meals : Z) :
  days_count (calculate_per_diem start_time end_time true c_level meals)
  = inject_Z (overnight_days (total_seconds (end_time - start_time))).
Proof.
  unfold calculate_per_diem, overnight_days, floordiv, pymod, floordiv. simpl days_count.
  rewrite int_of_float_inject_Z. reflexivity.
Qed.

Lemma days_count_day_trip (start_time end_time : datetime) (c_level : string) (meals : Z) :
  (days_count (calculate_per_diem start_time end_time false c_level meals)
   == day_trip_days (total_seconds (end_time - start_time)%Z))%Q.
Proof.
  unfold calculate_per_diem, day_trip_days. simpl days_count.
  destruct (Qltb _ _); [reflexivity |].
  destruct (Qltb _ _); reflexivity.
Qed.

(** The same day count in integer arithmetic on microseconds. *)
Lemma total_seconds_days (us : Z) :
  Qfloor (total_seconds us / 86400) = us / day_us.
Proof.
  unfold total_seconds, day_us, hour_us, second_us.
  rewrite Zdiv_Qdiv. apply Qfloor_comp.
  rewrite (Qmake_Qdiv us 1000000).
  change (inject_Z (Z.pos 1000000)) with 1000000%Q.
  change (inject_Z (24 * (3600 * 1000000))) with 86400000000%Q.
  field.
Qed.

Lemma total_seconds_remainder (us : Z) :
  (total_seconds us - 86400 * inject_Z (Qfloor (total_seconds us / 86400))
   == inject_Z (us mod day_us) / 1000000)%Q.
Proof.
  rewrite total_seconds_days.
  rewrite (Z.mod_eq us day_us) by (unfold day_us, hour_us, second_us; lia).
  unfold total_seconds. rewrite (Qmake_Qdiv us 1000000).
  unfold Z.sub. rewrite inject_Z_plus, inject_Z_opp, inject_Z_mult.
  change (inject_Z (Z.pos 1000000)) with 1000000%Q.
  change (inject_Z day_us) with 86400000000%Q.
  field.
Qed.

Lemma overnight_days_us (us : Z) :
  overnight_days (total_seconds us)
  = us / day_us + (if 12 * hour_us <? us mod day_us then 1 else 0).
Proof.
  unfold overnight_days.
  assert (E : Qltb 43200 (total_seconds us - 86400 * inject_Z (Qfloor (total_seconds us / 86400)))
              = (12 * hour_us <? us mod day_us)).
  { destruct (12 * hour_us <? us mod day_us) eqn:Hz.
    - apply Z.ltb_lt in Hz. apply Qltb_true. rewrite total_seconds_remainder.
      rewrite Zlt_Qlt in Hz.
      change (inject_Z (12 * hour_us)) with 43200000000%Q in Hz.
      apply Qlt_shift_div_l; [reflexivity |].
      generalize dependent (inject_Z (us mod day_us)). intros q Hq. lra.
    - apply Z.ltb_ge in Hz. apply Qltb_false. rewrite total_seconds_remainder.
      rewrite Zle_Qle in Hz.
      change (inject_Z (12 * hour_us)) with 43200000000%Q in Hz.
      apply Qle_shift_div_r; [reflexivity |].
      generalize dependent (inject_Z (us mod day_us)). intros q Hq. lra. }
  rewrite E, total_seconds_days.
  destruct (12 * hour_us <? us mod day_us); lia.
Qed.

Lemma day_trip_days_us (us : Z) :
  (day_trip_days (total_seconds us)
   == if (12 * hour_us <? us)%Z then 1
      else if (6 * hour_us <? us)%Z then 1 # 2 else 0)%Q.
Proof.
  assert (T : (total_seconds us == inject_Z us / 1000000)%Q).
  { unfold total_seconds. rewrite (Qmake_Qdiv us 1000000). reflexivity. }
  assert (E : forall h : Z,
             Qltb (inject_Z (h * 3600)) (total_seconds us) = (h * hour_us <? us)).
  { intros h. destruct (h * hour_us <? us) eqn:Hz.
    - apply Z.ltb_lt in Hz. apply Qltb_true. rewrite T.
      rewrite Zlt_Qlt in Hz. unfold hour_us, second_us in Hz.
      rewrite !inject_Z_mult in *.
      change (inject_Z 3600) with 3600%Q in *.
      change (inject_Z 1000000) with 1000000%Q in *.
      apply Qlt_shift_div_l; [reflexivity |].
      generalize dependent (inject_Z us). generalize dependent (inject_Z h).
      intros p q Hq. lra.
    - apply Z.ltb_ge in Hz. apply Qltb_false. rewrite T.
      rewrite Zle_Qle in Hz. unfold hour_us, second_us in Hz.
      rewrite !inject_Z_mult in *.
      change (inject_Z 3600) with 3600%Q in *.
      change (inject_Z 1000000) with 1000000%Q in *.
      apply Qle_shift_div_r; [reflexivity |].
      generalize dependent (inject_Z us). generalize dependent (inject_Z h).
      intros p q Hq. lra. }
  unfold day_trip_days.
  change 43200%Q with (inject_Z (12 * 3600)).
  change 21600%Q with (inject_Z (6 * 3600)).
  rewrite !E. reflexivity.
Qed.


Lemma overnight_days_nonneg (us : Z) : 0 <= us -> 0 <= overnight_days (total_seconds us).
Proof.
  intros Hus. rewrite overnight_days_us.
  assert (0 <= us / day_us) by (apply Z.div_pos; [assumption | reflexivity]).
  destruct (12 * hour_us <? us mod day_us); lia.
Qed.

Lemma day_trip_days_nonneg (T : Q) : (0 <= day_trip_days T)%Q.
Proof.
  unfold day_trip_days.
  destruct (Qltb 43200 T); [discriminate |].
  destruct (Qltb 21600 T); discriminate.
Qed.

(** ** Per diem: base amount, deduction and net amount *)

Section PerDiemAmounts.

Variables (start_time end_time : datetime) (is_overnight : bool).
Variables (c_level : string) (meals : Z).

Let res := calculate_per_diem start_time end_time is_overnight c_level meals.

Lemma base_amount_eq :
  base_amount res = (days_count res * inject_Z (rate_per_day res))%Q.
Proof. reflexivity. Qed.

Lemma rate_per_day_nonneg : 0 <= rate_per_day res.
Proof. apply per_diem_rate_nonneg. Qed.

Lemma deduction_without_meals : meals <= 0 -> deduction res = 0.0%Q.
Proof.
  intros Hm. subst res. unfold calculate_per_diem. simpl deduction.
  destruct (0 <? meals) eqn:E; [apply Z.ltb_lt in E; lia | reflexivity].
Qed.

Lemma net_without_meals : meals <= 0 -> net_amount res = base_amount res.
Proof.
  intros Hm. subst res. unfold calculate_per_diem. simpl.
  destruct (0 <? meals) eqn:E; [apply Z.ltb_lt in E; lia | reflexivity].
Qed.

Lemma net_with_meals :
  0 < meals ->
  deduction res = (inject_Z (rate_per_day res) / 3 * inject_Z meals)%Q
  /\ net_amount res = Py.max 0 (base_amount res - deduction res).
Proof.
  intros Hm. subst res. unfold calculate_per_diem. simpl.
  apply Z.ltb_lt in Hm. rewrite Hm. split; reflexivity.
Qed.

Lemma per_diem_deduction :
  0 <= meals ->
  (deduction res == inject_Z (rate_per_day res) / 3 * inject_Z meals)%Q.
Proof.
  intros Hm. destruct (Z.eq_dec meals 0) as [E | E].
  - rewrite deduction_without_meals by lia. rewrite E.
    change (inject_Z 0) with 0%Q. ring.
  - destruct net_with_meals as [-> _]; [lia | reflexivity].
Qed.

(** From here on the window does not end before it starts. *)
Hypothesis window : start_time <= end_time.

Lemma days_count_nonneg : (0 <= days_count res)%Q.
Proof.
  subst res. destruct is_overnight.
  - rewrite days_count_overnight.
    change 0%Q with (inject_Z 0). rewrite <- Zle_Qle.
    apply overnight_days_nonneg. lia.
  - rewrite days_count_day_trip. apply day_trip_days_nonneg.
Qed.

Lemma base_amount_nonneg : (0 <= base_amount res)%Q.
Proof.
  rewrite base_amount_eq. apply Qmult_le_0_compat.
  - apply days_count_nonneg.
  - change 0%Q with (inject_Z 0). rewrite <- Zle_Qle. apply rate_per_day_nonneg.
Qed.

Lemma per_diem_net :
  0 <= meals ->
  (net_amount res == Qmax 0 (base_amount res - deduction res))%Q.
Proof.
  intros Hm. destruct (Z.eq_dec meals 0) as [E | E].
  - rewrite net_without_meals, deduction_without_meals by lia.
    pose proof base_amount_nonneg as Hb.
    symmetry. rewrite Q.max_r; lra.
  - destruct net_with_meals as [_ ->]; [lia |]. apply py_max_Qmax.
Qed.

Lemma per_diem_net_nonneg : 0 <= meals -> (0 <= net_amount res)%Q.
Proof.
  intros Hm. rewrite (per_diem_net Hm). apply Q.le_max_l.
Qed.

End PerDiemAmounts.

(** ** Worked calls *)

Example general_actual_over_ceiling :
  validate_accommodation "C1-C8" "actual" 2 3500 "single" false 0
    "general" "private"
  = Ok {| accom_type := "actual";
          accom_nights := 2;
          accom_rate_per_night := 1500;
          accom_allowed_per_night := 1500;
          accom_total_allowed := None;
          accom_total_ceiling := Some 3000;
          accom_actual_cost := Some 3500%Q;
          accom_reimbursable_amount := 3000;
          accom_is_approved := false;
          accom_room_type := Some "single"%string;
          accom_trip_type := "general";
          accom_training_venue := None;
          accom_warnings := [WarnAttachReceipt; WarnExceedsCeiling 3500 3000];
          accom_remark := RemGeneralActual "single" 1500 true |}.
Proof. reflexivity. Qed.

Example state_training_actual_within_ceiling :
  validate_accommodation "C9-C11" "actual" 3 3000 "double" false 0
    "training" "state"
  = Ok {| accom_type := "actual";
          accom_nights := 3;
          accom_rate_per_night := 1200;
          accom_allowed_per_night := 1200;
          accom_total_allowed := None;
          accom_total_ceiling := Some 3600;
          accom_actual_cost := Some 3000%Q;
          accom_reimbursable_amount := 3000;
          accom_is_approved := true;
          accom_room_type := Some "double"%string;
          accom_trip_type := "training";
          accom_training_venue := Some "state"%string;
          accom_warnings := [WarnStateVenue; WarnAttachReceipt];
          accom_remark := RemStateActual 1200 |}.
Proof. reflexivity. Qed.

Example private_training_junior_single :
  validate_accommodation "C1-C8" "actual" 1 2000 "single" false 0
    "training" "private"
  = Ok {| accom_type := "actual";
          accom_nights := 1;
          accom_rate_per_night := 1600;
          accom_allowed_per_night := 1600;
          accom_total_allowed := None;
          accom_total_ceiling := Some 1600;
          accom_actual_cost := Some 2000%Q;
          accom_reimbursable_amount := 1600;
          accom_is_approved := false;
          accom_room_type := Some "single"%string;
          accom_trip_type := "training";
          accom_training_venue := Some "private"%string;
          accom_warnings :=
            [WarnJuniorSingleRoom; WarnAttachReceipt; WarnExceedsCeiling 2000 1600];
          accom_remark := RemPrivateActual "single" 1600 true |}.
Proof. reflexivity. Qed.

(** The manual rate counts on a general trip, and a grade outside the table
    is paid the C1-C8 rate. *)
Example general_lump_sum_manual_rate :
  exists res,
    validate_accommodation "C9-C11" "lump_sum" 3 0 "single" false 1000
      "general" "private" = Ok res
    /\ accom_rate_per_night res = 1000%Q
    /\ accom_reimbursable_amount res = (1000 * 3)%Q.
Proof. eexists. split; [reflexivity |]. split; reflexivity. Qed.

Example general_lump_sum_unknown_grade :
  exists res,
    validate_accommodation "C12" "lump_sum" 3 0 "single" false 0
      "general" "private" = Ok res
    /\ accom_rate_per_night res = 800%Q.
Proof. eexists. split; [reflexivity |]. reflexivity. Qed.

Example private_car_mileage :
  (transport_reimbursable_amount (calculate_transportation "private_car" 12.5)
   == 50)%Q.
Proof. reflexivity. Qed.

Example motorcycle_mileage :
  (transport_reimbursable_amount (calculate_transportation "motorcycle" 12.5)
   == 25)%Q.
Proof. reflexivity. Qed.

(** ** Accommodation *)

(** The two fields and the warnings of an actual-cost result, read off the
    approval test on [actual_cost] and [total_ceiling]. *)
Lemma actual_cost_capping (actual_cost total_ceiling : Q) (ws : list Warning) (w : Warning) :
  is_exceeds_ceiling w = true ->
  existsb is_exceeds_ceiling ws = false ->
  let approved := Qle_bool actual_cost total_ceiling in
  (Py.min actual_cost total_ceiling == Qmin actual_cost total_ceiling)%Q
  /\ (approved = true <-> (actual_cost <= total_ceiling)%Q)
  /\ (existsb is_exceeds_ceiling (if negb approved then ws ++ [w] else ws) = true
      <-> approved = false).
Proof.
  intros Hw Hws approved. split; [apply py_min_Qmin |]. split; [apply Qle_bool_iff |].
  destruct approved; simpl.
  - rewrite Hws. split; discriminate.
  - rewrite existsb_app. simpl. rewrite Hw. simpl. rewrite orb_true_r. tauto.
Qed.

(** C1. On each of the three paths that cap an actual cost (general trip,
    training at a state venue, training at a private venue), for every grade,
    room type, number of nights, actual cost and manual rate, the call
    returns, with [reimbursable_amount = min(actual_cost, ceiling * nights)],
    [is_approved] true exactly when [actual_cost <= ceiling * nights], the
    attach-receipt warning in [warnings], and an exceeds-ceiling warning in
    [warnings] exactly when the claim is not approved; [ceiling] is the table
    value of the grade and room type on that path. *)
Theorem actual_cost_accommodation
    (p : AccomPath) (g : Grade) (r : RoomType)
    (nights : Z) (actual_cost manual_rate : Q) :
  let total_ceiling := inject_Z (path_ceiling p g r * nights) in
  exists res,
    validate_accommodation (grade_key g) "actual" nights actual_cost
      (room_key r) false manual_rate (path_trip_type p) (path_venue p) = Ok res
    /\ (accom_reimbursable_amount res == Qmin actual_cost total_ceiling)%Q
    /\ (accom_is_approved res = true <-> (actual_cost <= total_ceiling)%Q)
    /\ In WarnAttachReceipt (accom_warnings res)
    /\ (existsb is_exceeds_ceiling (accom_warnings res) = true
        <-> accom_is_approved res = false).
Proof.
  intros total_ceiling. subst total_ceiling.
  destruct p; unfold validate_accommodation; simpl.
  - (* general *)
    unfold _calc_general_accommodation; simpl.
    destruct (general_ceiling_lookup g r) as (single & Hs & Hc).
    rewrite Hs; simpl. rewrite Hc. eexists. split; [reflexivity |]. simpl.
    destruct (actual_cost_capping actual_cost
                (inject_Z (general_actual_ceiling g r * nights))
                [WarnAttachReceipt]
                (WarnExceedsCeiling actual_cost (general_actual_ceiling g r * nights))
                eq_refl eq_refl) as (Hmin & Happ & Hwarn).
    repeat split; try apply Hmin; try apply Happ; try apply Hwarn.
    destruct (negb _); simpl; auto.
  - (* training, state venue *)
    unfold _calc_training_accommodation; simpl.
    destruct (general_ceiling_lookup g r) as (single & Hs & Hc).
    rewrite Hs; simpl. rewrite Hc. eexists. split; [reflexivity |]. simpl.
    destruct (actual_cost_capping actual_cost
                (inject_Z (general_actual_ceiling g r * nights))
                [WarnStateVenue; WarnAttachReceipt]
                (WarnExceedsCeilingState (general_actual_ceiling g r * nights))
                eq_refl eq_refl) as (Hmin & Happ & Hwarn).
    repeat split; try apply Hmin; try apply Happ; try apply Hwarn.
    destruct (negb _); simpl; auto.
  - (* training, private venue *)
    unfold _calc_training_accommodation; simpl.
    destruct (private_ceiling_lookup g r) as (double & Hd & Hc).
    rewrite Hd; simpl. rewrite Hc. eexists. split; [reflexivity |]. simpl.
    set (ws := (if String.eqb (grade_key g) "C1-C8" && String.eqb (room_key r) "single"
                then [WarnJuniorSingleRoom] else []) ++ [WarnAttachReceipt]).
    assert (Hws : existsb is_exceeds_ceiling ws = false).
    { subst ws. destruct (_ && _); reflexivity. }
    assert (Hin : In WarnAttachReceipt ws).
    { subst ws. apply in_or_app. right. left. reflexivity. }
    destruct (actual_cost_capping actual_cost
                (inject_Z (private_training_ceiling g r * nights))
                ws
                (WarnExceedsCeiling actual_cost (private_training_ceiling g r * nights))
                eq_refl Hws) as (Hmin & Happ & Hwarn).
    repeat split; try apply Hmin; try apply Happ; try apply Hwarn.
    destruct (negb _); [apply in_or_app; left |]; exact Hin.
Qed.

(** C2. Whatever the other arguments are, a call with [is_vehicle_sleep]
    returns a result with [reimbursable_amount = 0], [nights = 0] and
    [is_approved = True] (and no warning). *)
Theorem vehicle_sleep_overrides
    (c_level expense_type : string) (nights : Z) (actual_cost : Q)
    (room_type : string) (manual_rate : Q) (trip_type training_venue : string) :
  exists res,
    validate_accommodation c_level expense_type nights actual_cost room_type
      true manual_rate trip_type training_venue = Ok res
    /\ accom_reimbursable_amount res = 0%Q
    /\ accom_nights res = 0
    /\ accom_is_approved res = true
    /\ accom_warnings res = [].
Proof.
  unfold validate_accommodation. eexists. split; [reflexivity |].
  repeat split.
Qed.

(** C5. Training at a private venue paid as a lump sum: for every grade, room
    type, number of nights, actual cost and manual rate the call returns with
    [rate_per_night] the private-venue ceiling of the grade and room type
    (Junior 1600 single, 1000 double; Senior 2700 single, 1500 double),
    [reimbursable_amount = rate * nights] and [is_approved = True]; the result
    is the one obtained with no manual rate at all. *)
Theorem private_training_lump_sum
    (g : Grade) (r : RoomType) (nights : Z) (actual_cost manual_rate : Q) :
  let call m :=
    validate_accommodation (grade_key g) "lump_sum" nights actual_cost
      (room_key r) false m "training" "private" in
  exists res,
    call manual_rate = Ok res
    /\ accom_rate_per_night res = inject_Z (private_training_ceiling g r)
    /\ private_training_ceiling g r
       = match g, r with
         | Junior, Single => 1600 | Junior, Double => 1000
         | Senior, Single => 2700 | Senior, Double => 1500
         end
    /\ (accom_reimbursable_amount res
        == accom_rate_per_night res * inject_Z nights)%Q
    /\ accom_is_approved res = true
    /\ call manual_rate = call 0%Q.
Proof.
  intros call. subst call. unfold validate_accommodation; simpl.
  unfold _calc_training_accommodation; simpl.
  destruct (private_ceiling_lookup g r) as (double & Hd & Hc).
  rewrite Hd; simpl. rewrite Hc. eexists. split; [reflexivity |]. simpl.
  repeat split.
Qed.

(** [validate_accommodation] never raises: the two subscripts it evaluates,
    ["single"] and ["double"], are keys of every ceiling map, the default
    literals included. *)
Lemma validate_accommodation_returns
    (c_level expense_type : string) (nights : Z) (actual_cost : Q)
    (room_type : string) (is_vehicle_sleep : bool) (manual_rate : Q)
    (trip_type training_venue : string) :
  exists res,
    validate_accommodation c_level expense_type nights actual_cost room_type
      is_vehicle_sleep manual_rate trip_type training_venue = Ok res.
Proof.
  destruct (ceiling_map_item _ "single" (general_ceiling_map_ok c_level))
    as (single & Hs & _); [auto |].
  destruct (ceiling_map_item _ "double" (private_ceiling_map_ok c_level))
    as (double & Hd & _); [auto |].
  unfold validate_accommodation,
    _calc_general_accommodation, _calc_training_accommodation.
  rewrite Hs, Hd. simpl.
  destruct is_vehicle_sleep; [eauto |].
  destruct (String.eqb trip_type "general"),
    (String.eqb expense_type "lump_sum"),
    (String.eqb training_venue "state"); eauto.
Qed.

(** Bounds of the two ways an amount is computed. *)
Lemma capped_amount_bounds (actual_cost : Q) (ceiling nights : Z) :
  (0 <= actual_cost)%Q -> 0 <= ceiling -> 0 <= nights ->
  (0 <= Py.min actual_cost (inject_Z (ceiling * nights)))%Q
  /\ (Py.min actual_cost (inject_Z (ceiling * nights)) <= inject_Z (ceiling * nights))%Q.
Proof.
  intros Ha Hc Hn. split; [| apply py_min_le_r].
  apply py_min_glb; [exact Ha |].
  change 0%Q with (inject_Z 0). rewrite <- Zle_Qle. lia.
Qed.

Lemma lump_sum_amount_nonneg (manual_rate : Q) (table_rate nights : Z) :
  (0 <= manual_rate)%Q -> 0 <= table_rate -> 0 <= nights ->
  (0 <= (if Qltb 0 manual_rate then manual_rate else inject_Z table_rate)
        * inject_Z nights)%Q.
Proof.
  intros Hm Ht Hn. apply Qmult_le_0_compat.
  - destruct (Qltb 0 manual_rate); [exact Hm |].
    change 0%Q with (inject_Z 0). rewrite <- Zle_Qle. exact Ht.
  - change 0%Q with (inject_Z 0). rewrite <- Zle_Qle. exact Hn.
Qed.

(** With [nights], [actual_cost] and [manual_rate] not negative, whatever
    strings the call is given, the amount it returns is not negative and,
    where the result carries a [total_ceiling], not above it. *)
Lemma accommodation_bounds
    (c_level expense_type : string) (nights : Z) (actual_cost : Q)
    (room_type : string) (is_vehicle_sleep : bool) (manual_rate : Q)
    (trip_type training_venue : string) :
  0 <= nights -> (0 <= actual_cost)%Q -> (0 <= manual_rate)%Q ->
  exists res,
    validate_accommodation c_level expense_type nights actual_cost room_type
      is_vehicle_sleep manual_rate trip_type training_venue = Ok res
    /\ (0 <= accom_reimbursable_amount res)%Q
    /\ (forall total_ceiling,
          accom_total_ceiling res = Some total_ceiling ->
          (accom_reimbursable_amount res <= inject_Z total_ceiling)%Q)
    /\ (accom_type res = "actual"%string -> is_Some (accom_total_ceiling res)).
Proof.
  intros Hn Ha Hm.
  pose proof (lump_sum_rate_nonneg c_level) as Hlump.
  unfold validate_accommodation. destruct is_vehicle_sleep.
  { eexists. split; [reflexivity |]. simpl. repeat split; try discriminate. }
  destruct (String.eqb trip_type "general").
  - unfold _calc_general_accommodation.
    destruct (String.eqb expense_type "lump_sum").
    + eexists. split; [reflexivity |]. simpl. repeat split; try discriminate.
      apply lump_sum_amount_nonneg; assumption.
    + destruct (ceiling_map_item _ "single" (general_ceiling_map_ok c_level))
        as (single & Hs & _ & Hget); [auto |].
      rewrite Hs; simpl. eexists. split; [reflexivity |]. simpl.
      destruct (capped_amount_bounds actual_cost _ nights Ha (Hget room_type) Hn).
      repeat split; [assumption | | eauto].
      intros tc [= <-]. assumption.
  - unfold _calc_training_accommodation.
    destruct (String.eqb training_venue "state").
    + destruct (String.eqb expense_type "lump_sum").
      * eexists. split; [reflexivity |]. simpl. repeat split; try discriminate.
        apply lump_sum_amount_nonneg; assumption.
      * destruct (ceiling_map_item _ "single" (general_ceiling_map_ok c_level))
          as (single & Hs & _ & Hget); [auto |].
        rewrite Hs; simpl. eexists. split; [reflexivity |]. simpl.
        destruct (capped_amount_bounds actual_cost _ nights Ha (Hget room_type) Hn).
        repeat split; [assumption | | eauto].
        intros tc [= <-]. assumption.
    + destruct (ceiling_map_item _ "double" (private_ceiling_map_ok c_level))
        as (double & Hd & _ & Hget); [auto |].
      rewrite Hd; simpl.
      destruct (String.eqb expense_type "lump_sum").
      * eexists. split; [reflexivity |]. simpl. repeat split; try discriminate.
        change 0%Q with (inject_Z 0). rewrite <- Zle_Qle.
        apply Z.mul_nonneg_nonneg; [apply Hget | exact Hn].
      * eexists. split; [reflexivity |]. simpl.
        destruct (capped_amount_bounds actual_cost _ nights Ha (Hget room_type) Hn).
        repeat split; [assumption | | eauto].
        intros tc [= <-]. assumption.
Qed.

(** ** Taxi meter: the fare the body computes before it returns *)

Lemma py_min_l (a b : Q) : (a <= b)%Q -> Py.min a b = a.
Proof. intros H. unfold Py.min. apply Qltb_false in H. rewrite H. reflexivity. Qed.

Lemma py_min_r (a b : Q) : (b < a)%Q -> Py.min a b = b.
Proof. intros H. unfold Py.min. apply Qltb_true in H. rewrite H. reflexivity. Qed.

Lemma Qltb_true_intro (a b : Q) : (a < b)%Q -> Qltb a b = true.
Proof. apply Qltb_true. Qed.

Lemma Qltb_false_intro (a b : Q) : (b <= a)%Q -> Qltb a b = false.
Proof. apply Qltb_false. Qed.

Lemma band_portion_below (r from len : Q) :
  (0 <= len -> r <= from -> band_portion r from len == 0)%Q.
Proof.
  intros Hl Hr. unfold band_portion.
  rewrite (Q.max_r (r - from) 0) by lra. apply Q.min_l. exact Hl.
Qed.

Lemma band_portion_inside (r from len : Q) :
  (from <= r -> r <= from + len -> band_portion r from len == r - from)%Q.
Proof.
  intros H1 H2. unfold band_portion.
  rewrite (Q.max_l (r - from) 0) by lra. apply Q.min_l. lra.
Qed.

Lemma band_portion_above (r from len : Q) :
  (0 <= len -> from + len <= r -> band_portion r from len == len)%Q.
Proof.
  intros Hl Hr. unfold band_portion.
  rewrite (Q.max_l (r - from) 0) by lra. apply Q.min_r. lra.
Qed.

(** One test of the ladder, once the position of the distance is known. *)
Ltac settle_test :=
  match goal with
  | |- context [Py.min ?a ?b] =>
      first [rewrite (py_min_l a b) by lra | rewrite (py_min_r a b) by lra]
  | |- context [Qltb ?a ?b] =>
      first [rewrite (Qltb_true_intro a b) by lra
            | rewrite (Qltb_false_intro a b) by lra]
  end.

Ltac settle_band :=
  match goal with
  | |- context [band_portion ?r ?from ?len] =>
      first [rewrite (band_portion_below r from len) by lra
            | rewrite (band_portion_inside r from len) by lra
            | rewrite (band_portion_above r from len) by lra]
  | |- context [Qmax ?a 0] =>
      first [rewrite (Q.max_l a 0) by lra | rewrite (Q.max_r a 0) by lra]
  end.

Lemma taxi_meter_ladder_tariff (distance_km : Q) :
  (taxi_meter_ladder distance_km == tariff_ladder distance_km)%Q.
Proof.
  unfold taxi_meter_ladder, tariff_ladder. cbv zeta.
  destruct (Qle_bool (distance_km - 1) 0) eqn:H0.
  { apply Qle_bool_iff in H0. repeat settle_band. lra. }
  apply Qle_bool_false in H0.
  destruct (Qlt_le_dec 9 (distance_km - 1)) as [H9 | H9];
    [| repeat settle_test; repeat settle_band; lra].
  destruct (Qlt_le_dec 19 (distance_km - 1)) as [H19 | H19];
    [| repeat settle_test; repeat settle_band; lra].
  destruct (Qlt_le_dec 39 (distance_km - 1)) as [H39 | H39];
    [| repeat settle_test; repeat settle_band; lra].
  destruct (Qlt_le_dec 59 (distance_km - 1)) as [H59 | H59];
    [| repeat settle_test; repeat settle_band; lra].
  destruct (Qlt_le_dec 79 (distance_km - 1)) as [H79 | H79];
    repeat settle_test; repeat settle_band; lra.
Qed.

Lemma band_portion_mono (r1 r2 from len : Q) :
  (r1 <= r2 -> band_portion r1 from len <= band_portion r2 from len)%Q.
Proof.
  intros H. unfold band_portion.
  apply Q.min_le_compat_r. apply Q.max_le_compat_r. lra.
Qed.

Lemma tariff_ladder_mono (d1 d2 : Q) :
  (d1 <= d2 -> tariff_ladder d1 <= tariff_ladder d2)%Q.
Proof.
  intros H. unfold tariff_ladder. cbv zeta.
  assert (Hr : (d1 - 1 <= d2 - 1)%Q) by lra.
  pose proof (band_portion_mono _ _ 0 9 Hr).
  pose proof (band_portion_mono _ _ 9 10 Hr).
  pose proof (band_portion_mono _ _ 19 20 Hr).
  pose proof (band_portion_mono _ _ 39 20 Hr).
  pose proof (band_portion_mono _ _ 59 20 Hr).
  assert (Qmax (d1 - 1 - 79) 0 <= Qmax (d2 - 1 - 79) 0)%Q
    by (apply Q.max_le_compat_r; lra).
  lra.
Qed.

(** The local [total_fare]: tariff of the distance, three baht a minute of
    slow traffic, and the flat surcharges. *)
Lemma taxi_meter_total_fare
    (distance_km : Q) (traffic_minutes : Z) (booking_fee airport_surcharge : bool) :
  (local_total_fare
     (taxi_meter_locals distance_km traffic_minutes booking_fee airport_surcharge)
   == tariff_ladder distance_km + inject_Z traffic_minutes * 3
      + flat_surcharges booking_fee airport_surcharge)%Q.
Proof.
  unfold taxi_meter_locals, flat_surcharges. simpl local_total_fare.
  rewrite taxi_meter_ladder_tariff.
  destruct booking_fee, airport_surcharge; simpl;
    generalize (inject_Z traffic_minutes); intros q;
    generalize (tariff_ladder distance_km); intros t;
    match goal with
    | |- context [inject_Z ?z] =>
        let v := eval vm_compute in (inject_Z z) in change (inject_Z z) with v
    end; lra.
Qed.

(** That local fare never decreases when the distance or the traffic time
    grows or a surcharge is switched on. *)
Lemma taxi_meter_total_fare_mono
    (d1 d2 : Q) (t1 t2 : Z) (b1 b2 a1 a2 : bool) :
  (d1 <= d2)%Q -> t1 <= t2 -> implb b1 b2 = true -> implb a1 a2 = true ->
  (local_total_fare (taxi_meter_locals d1 t1 b1 a1)
   <= local_total_fare (taxi_meter_locals d2 t2 b2 a2))%Q.
Proof.
  intros Hd Ht Hb Ha. rewrite !taxi_meter_total_fare.
  pose proof (tariff_ladder_mono d1 d2 Hd) as Hl.
  rewrite Zle_Qle in Ht.
  assert (Hs : (flat_surcharges b1 a1 <= flat_surcharges b2 a2)%Q).
  { unfold flat_surcharges.
    destruct b1, b2, a1, a2; simpl in *; try discriminate; lra. }
  generalize dependent (inject_Z t1). generalize dependent (inject_Z t2).
  intros q2 q1 Hq.
  generalize dependent (tariff_ladder d1). generalize dependent (tariff_ladder d2).
  intros; lra.
Qed.

(** The call itself never gets as far as returning. *)
Lemma calculate_taxi_meter_raises
    (distance_km : Q) (traffic_minutes : Z) (booking_fee airport_surcharge : bool) :
  calculate_taxi_meter distance_km traffic_minutes booking_fee airport_surcharge
  = Raise (NameError "fare_distance").
Proof. reflexivity. Qed.

(** C6. [calculate_taxi_meter] computes the tariff the specification
    describes into its local [total_fare] (35 for a distance of 0, 100.5 for
    11 km without traffic or surcharge), but the call raises [NameError] on
    the unassigned name [fare_distance] instead of returning it. *)
Theorem taxi_meter_fare_not_returned :
  calculate_taxi_meter 0 0 false false = Raise (NameError "fare_distance")
  /\ (local_total_fare (taxi_meter_locals 0 0 false false) == 35)%Q
  /\ calculate_taxi_meter 11 0 false false = Raise (NameError "fare_distance")
  /\ (local_total_fare (taxi_meter_locals 11 0 false false) == 100.5)%Q.
Proof. repeat split. Qed.

(** C7. No call of [calculate_taxi_meter] returns a fare, so there are no two
    returned fares to compare: for every input the call raises. *)
Theorem taxi_meter_returns_no_fare
    (distance_km : Q) (traffic_minutes : Z) (booking_fee airport_surcharge : bool)
    (res : TaxiMeterResult) :
  calculate_taxi_meter distance_km traffic_minutes booking_fee airport_surcharge
  <> Ok res.
Proof. rewrite calculate_taxi_meter_raises. discriminate. Qed.

(** The top rate starts at 80 km of total distance, that is 79 km past the
    first kilometre, where the five bands end. *)
Lemma tariff_ladder_top_rate (distance_km : Q) :
  (80 <= distance_km ->
   tariff_ladder distance_km == tariff_ladder 80 + (distance_km - 80) * 10.5)%Q.
Proof.
  intros H. unfold tariff_ladder. cbv zeta.
  repeat settle_band. lra.
Qed.

(** ** Training meals *)

(** Classification, rates and totals at the grades and venues of the
    annotations. *)
Lemma training_meal_rates
    (g : Grade) (v : Venue) (meal_count snack_count : Z) :
  exists res,
    calculate_training_meal_allowance (grade_key g) (venue_key v)
      meal_count snack_count = Ok res
    /\ meal_training_type res
       = match g with Senior => "Type A"%string | Junior => "Type B"%string end
    /\ (meal_rate res, snack_rate res)
       = match v, g with
         | StateFacility, Senior => (400, 35)
         | StateFacility, Junior => (200, 35)
         | PrivateFacility, Senior => (700, 50)
         | PrivateFacility, Junior => (400, 50)
         end
    /\ meal_total res = meal_count * meal_rate res
    /\ snack_total res = snack_count * snack_rate res
    /\ grand_total res = meal_total res + snack_total res.
Proof.
  destruct g, v; (eexists; split; [reflexivity |]); simpl; repeat split.
Qed.

(** An unknown venue is a [KeyError]; an unknown grade is read as Type B. *)
Lemma training_meal_unknown_venue (c_level venue : string) (meal_count snack_count : Z) :
  venue <> "state"%string -> venue <> "private"%string ->
  calculate_training_meal_allowance c_level venue meal_count snack_count
  = Raise (KeyError venue).
Proof.
  intros Hs Hp. unfold calculate_training_meal_allowance, dict_item at 1.
  unfold TRAINING_RATES, list_to_map at 1. simpl foldr.
  rewrite lookup_insert_ne by congruence.
  rewrite lookup_insert_ne by congruence.
  rewrite lookup_empty. reflexivity.
Qed.

(** C8. For every grade, venue and pair of counts the call returns; Senior is
    classified "Type A" and Junior "Type B"; the rates are (400, 35) and
    (200, 35) at a state venue for Type A and Type B, (700, 50) and (400, 50)
    at a private venue; [meal_total = meal_count * meal_rate],
    [snack_total = snack_count * snack_rate] and [grand_total] is their sum.
    Senior at a private venue with 2 meals and 1 snack gives 1400, 50 and
    1450. *)
Theorem training_meal_allowance
    (g : Grade) (v : Venue) (meal_count snack_count : Z) :
  (exists res,
     calculate_training_meal_allowance (grade_key g) (venue_key v)
       meal_count snack_count = Ok res
     /\ meal_training_type res
        = match g with Senior => "Type A"%string | Junior => "Type B"%string end
     /\ (meal_rate res, snack_rate res)
        = match v, g with
          | StateFacility, Senior => (400, 35)
          | StateFacility, Junior => (200, 35)
          | PrivateFacility, Senior => (700, 50)
          | PrivateFacility, Junior => (400, 50)
          end
     /\ meal_total res = meal_count * meal_rate res
     /\ snack_total res = snack_count * snack_rate res
     /\ grand_total res = meal_total res + snack_total res)
  /\ (exists ex,
        calculate_training_meal_allowance "C9-C11" "private" 2 1 = Ok ex
        /\ meal_total ex = 1400 /\ snack_total ex = 50 /\ grand_total ex = 1450).
Proof.
  split; [apply training_meal_rates |].
  eexists. split; [reflexivity |]. repeat split.
Qed.

Lemma training_meal_total_nonneg
    (g : Grade) (v : Venue) (meal_count snack_count : Z) :
  0 <= meal_count -> 0 <= snack_count ->
  exists res,
    calculate_training_meal_allowance (grade_key g) (venue_key v)
      meal_count snack_count = Ok res
    /\ 0 <= grand_total res.
Proof.
  intros Hm Hs.
  destruct (training_meal_rates g v meal_count snack_count)
    as (res & Hres & _ & Hrates & Hmt & Hst & Hgt).
  exists res. split; [exact Hres |].
  rewrite Hgt, Hmt, Hst.
  destruct v, g; injection Hrates as -> ->; lia.
Qed.

(** ** Private vehicle and taxi cap *)

Lemma transportation_nonneg (vehicle_type : string) (distance_km : Q) :
  (0 <= distance_km)%Q ->
  (0 <= transport_reimbursable_amount
          (calculate_transportation vehicle_type distance_km))%Q.
Proof.
  intros Hd. unfold calculate_transportation. simpl.
  destruct (String.eqb vehicle_type "private_car");
    (apply Qmult_le_0_compat; [exact Hd | discriminate]).
Qed.

Lemma validate_taxi_bounds (route_type : string) (actual_cost : Q) :
  (0 <= actual_cost)%Q ->
  let res := validate_taxi route_type actual_cost in
  (0 <= taxi_reimbursable_amount res)%Q
  /\ (forall limit,
        taxi_limit res = LimitAmount limit ->
        (taxi_reimbursable_amount res <= limit)%Q).
Proof.
  intros Ha. unfold validate_taxi. simpl.
  destruct (String.eqb route_type "cross_bkk"); simpl.
  { split; [apply py_min_glb; [exact Ha | discriminate] |].
    intros limit [= <-]. apply py_min_le_r. }
  destruct (String.eqb route_type "cross_other"); simpl.
  { split; [apply py_min_glb; [exact Ha | discriminate] |].
    intros limit [= <-]. apply py_min_le_r. }
  split; [exact Ha | discriminate].
Qed.

(** C10. [validate_taxi] reimburses [min(actual_cost, limit)] with a limit of
    600 on the route type "cross_bkk" and of 500 on "cross_other"; on any
    other route type the limit is infinite and the whole actual cost is
    reimbursed. *)
Theorem taxi_route_cap (route_type : string) (actual_cost : Q) :
  let res := validate_taxi route_type actual_cost in
  (taxi_reimbursable_amount res
   == if String.eqb route_type "cross_bkk" then Qmin actual_cost 600
      else if String.eqb route_type "cross_other" then Qmin actual_cost 500
      else actual_cost)%Q
  /\ taxi_limit res
     = (if String.eqb route_type "cross_bkk" then LimitAmount 600
        else if String.eqb route_type "cross_other" then LimitAmount 500
        else LimitActual)
  /\ (taxi_reimbursable_amount (validate_taxi "cross_bkk" actual_cost)
      == Qmin actual_cost 600)%Q
  /\ (taxi_reimbursable_amount (validate_taxi "cross_other" actual_cost)
      == Qmin actual_cost 500)%Q
  /\ taxi_reimbursable_amount (validate_taxi "intraprivince" actual_cost)
     = actual_cost.
Proof.
  unfold validate_taxi. simpl.
  repeat split; try apply py_min_Qmin.
  - destruct (String.eqb route_type "cross_bkk"); simpl; [apply py_min_Qmin |].
    destruct (String.eqb route_type "cross_other"); simpl; [apply py_min_Qmin |].
    reflexivity.
  - destruct (String.eqb route_type "cross_bkk"); simpl; [reflexivity |].
    destruct (String.eqb route_type "cross_other"); reflexivity.
Qed.

(** ** The claims on per diem *)

(** C3. For every window with [end_time > start_time] that is shorter than
    2^34 seconds (some 544 years), of [T] seconds: an overnight trip counts
    [floor(T / 86400)] days and one more exactly when the remainder exceeds
    43200 seconds; a day trip counts 1 day when [T > 12h], half a day when
    [6h < T <= 12h] and none otherwise.  The same counts are given in integer
    arithmetic on the microseconds of the window.  So an overnight trip of
    24h counts 1 day, of 24h + 12h00m01s 2 days, of 24h + 11h59m59s 1 day; a
    day trip of 12h00m00s counts half a day, of 12h00m01s 1 day, of 6h00m00s
    none and of 6h00m01s half a day.

    The bound is where the float of [total_seconds()] still tells every
    microsecond from the thresholds: below 2^34 seconds a float is less than
    2^-20 seconds from the exact duration, and the thresholds, multiples of
    21600 seconds, are floats themselves. *)
Theorem per_diem_day_count
    (start_time end_time : datetime) (c_level : string) (meals : Z) :
  start_time < end_time ->
  end_time - start_time < 2 ^ 34 * second_us ->
  let us := end_time - start_time in
  let T := total_seconds us in
  let days s e overnight :=
    days_count (calculate_per_diem s e overnight c_level meals) in
  (days start_time end_time true
   == inject_Z (Qfloor (T / 86400))
      + (if Qltb 43200 (T - 86400 * inject_Z (Qfloor (T / 86400))) then 1 else 0))%Q
  /\ (days start_time end_time false
      == if Qltb 43200 T then 1 else if Qltb 21600 T then 1 # 2 else 0)%Q
  /\ days start_time end_time true
     = inject_Z (us / day_us + (if 12 * hour_us <? us mod day_us then 1 else 0))
  /\ (days start_time end_time false
      == if (12 * hour_us <? us)%Z then 1
         else if (6 * hour_us <? us)%Z then 1 # 2 else 0)%Q
  /\ (days start_time (start_time + 24 * hour_us)%Z true == 1)%Q
  /\ (days start_time
        (start_time + (24 * hour_us + 12 * hour_us + second_us))%Z true
      == 2)%Q
  /\ (days start_time
        (start_time + (24 * hour_us + 11 * hour_us + 59 * 60 * second_us
                       + 59 * second_us))%Z true
      == 1)%Q
  /\ (days start_time (start_time + 12 * hour_us)%Z false == 1 # 2)%Q
  /\ (days start_time (start_time + (12 * hour_us + second_us))%Z false == 1)%Q
  /\ (days start_time (start_time + 6 * hour_us)%Z false == 0)%Q
  /\ (days start_time (start_time + (6 * hour_us + second_us))%Z false == 1 # 2)%Q.
Proof.
  intros _ _ us T days. subst days T. cbv beta.
  rewrite !days_count_overnight, !days_count_day_trip. fold us.
  split; [| split; [| split; [| split]]].
  - unfold overnight_days. cbv zeta.
    destruct (Qltb 43200 _); rewrite ?inject_Z_plus; [reflexivity |].
    change (inject_Z 0) with 0%Q. ring.
  - reflexivity.
  - rewrite overnight_days_us. reflexivity.
  - apply day_trip_days_us.
  - repeat split;
      match goal with
      | |- context [(start_time + ?k - start_time)%Z] =>
          replace (start_time + k - start_time)%Z with k by lia
      end; reflexivity.
Qed.

Lemma per_diem_day_count_witness :
  0 < 36 * hour_us + second_us
  /\ 36 * hour_us + second_us - 0 < 2 ^ 34 * second_us
  /\ (days_count (calculate_per_diem 0 (36 * hour_us + second_us) true "C9-C11" 0)
      == 2)%Q
  /\ (days_count (calculate_per_diem 0 (36 * hour_us + second_us) false "C9-C11" 0)
      == 1)%Q.
Proof.
  split; [reflexivity |]. split; [reflexivity |].
  destruct (per_diem_day_count 0 (36 * hour_us + second_us) "C9-C11" 0
              eq_refl eq_refl)
    as (Hovernight & Hday & _).
  cbv beta zeta in Hovernight, Hday.
  split; [rewrite Hovernight | rewrite Hday]; reflexivity.
Defined.

(** C4. For every grade and every [provided_meals >= 0], on a window that
    does not end before it starts, the result has
    [deduction = (rate / 3) * provided_meals] and
    [net_amount = max(0, base_amount - deduction)], so the net amount is never
    negative.  A Junior traveller on a one-day trip with 4 meals provided has
    base 240, deduction 320 and net 0. *)
Theorem per_diem_meal_deduction
    (start_time end_time : datetime) (is_overnight : bool) (g : Grade) (meals : Z) :
  start_time <= end_time -> 0 <= meals ->
  let res := calculate_per_diem start_time end_time is_overnight (grade_key g) meals in
  let ex := calculate_per_diem start_time (start_time + 24 * hour_us) true "C1-C8" 4 in
  rate_per_day res = match g with Junior => 240 | Senior => 270 end
  /\ (deduction res == inject_Z (rate_per_day res) / 3 * inject_Z meals)%Q
  /\ (net_amount res == Qmax 0 (base_amount res - deduction res))%Q
  /\ (0 <= net_amount res)%Q
  /\ (days_count ex == 1 /\ base_amount ex == 240
      /\ deduction ex == 320 /\ net_amount ex == 0)%Q.
Proof.
  intros Hw Hm res ex. subst res.
  split; [destruct g; reflexivity |].
  split; [apply per_diem_deduction; exact Hm |].
  split; [apply per_diem_net; assumption |].
  split; [apply per_diem_net_nonneg; assumption |].
  subst ex. unfold calculate_per_diem.
  replace (start_time + 24 * hour_us - start_time) with (24 * hour_us) by lia.
  repeat split; vm_compute; reflexivity.
Qed.

Lemma per_diem_meal_deduction_witness :
  (net_amount (calculate_per_diem 0 (7 * hour_us) false "C9-C11" 2) == 0)%Q.
Proof.
  destruct (per_diem_meal_deduction 0 (7 * hour_us) false Senior 2)
    as (_ & _ & Hnet & _).
  - discriminate.
  - lia.
  - cbv zeta in Hnet. rewrite Hnet. reflexivity.
Defined.

(** ** Lookups with keys outside the tables *)

Lemma dict_get_insert {V : Type} (m : gmap string V) (k k' : string) (v d : V) :
  dict_get (<[k := v]> m) k' d = if String.eqb k' k then v else dict_get m k' d.
Proof.
  unfold dict_get. destruct (String.eqb_spec k' k) as [-> | Hne].
  - rewrite lookup_insert_eq. reflexivity.
  - rewrite lookup_insert_ne by congruence. reflexivity.
Qed.

Lemma dict_get_empty {V : Type} (k : string) (d : V) :
  dict_get (∅ : gmap string V) k d = d.
Proof. unfold dict_get. rewrite lookup_empty. reflexivity. Qed.

Lemma lump_sum_rate_lookup (c_level : string) :
  dict_get ACCOM_GENERAL_lump_sum c_level 800
  = if String.eqb c_level "C9-C11" then 1200 else 800.
Proof.
  unfold ACCOM_GENERAL_lump_sum, list_to_map. simpl foldr.
  rewrite !dict_get_insert, dict_get_empty.
  destruct (String.eqb_spec c_level "C1-C8") as [-> | _]; reflexivity.
Qed.

Lemma per_diem_rate_lookup (c_level : string) :
  dict_get PER_DIEM_RATES c_level 240
  = if String.eqb c_level "C9-C11" then 270 else 240.
Proof.
  unfold PER_DIEM_RATES, list_to_map. simpl foldr.
  rewrite !dict_get_insert, dict_get_empty.
  destruct (String.eqb_spec c_level "C1-C8") as [-> | _]; reflexivity.
Qed.

Lemma general_ceiling_map_lookup (c_level : string) :
  dict_get ACCOM_GENERAL_actual c_level general_default_ceiling_map
  = if String.eqb c_level "C9-C11"
    then list_to_map [("single"%string, 2200); ("double"%string, 1200)]
    else list_to_map [("single"%string, 1500); ("double"%string, 850)].
Proof.
  unfold ACCOM_GENERAL_actual, list_to_map at 1. simpl foldr.
  rewrite !dict_get_insert, dict_get_empty.
  destruct (String.eqb_spec c_level "C1-C8") as [-> | _]; reflexivity.
Qed.

Lemma private_ceiling_map_lookup (c_level : string) :
  dict_get ACCOM_TRAINING_PRIVATE c_level private_default_ceiling_map
  = if String.eqb c_level "C9-C11"
    then list_to_map [("single"%string, 2700); ("double"%string, 1500)]
    else list_to_map [("single"%string, 1600); ("double"%string, 1000)].
Proof.
  unfold ACCOM_TRAINING_PRIVATE, list_to_map at 1. simpl foldr.
  rewrite !dict_get_insert, dict_get_empty.
  destruct (String.eqb_spec c_level "C1-C8") as [-> | _]; reflexivity.
Qed.

Lemma room_lookup (single double : Z) (room_type : string) (dflt : Z) :
  dict_get (list_to_map [("single"%string, single); ("double"%string, double)])
    room_type dflt
  = if String.eqb room_type "single" then single
    else if String.eqb room_type "double" then double else dflt.
Proof.
  unfold list_to_map. simpl foldr.
  rewrite !dict_get_insert, dict_get_empty. reflexivity.
Qed.

Lemma general_single_item (c_level : string) :
  dict_item (dict_get ACCOM_GENERAL_actual c_level general_default_ceiling_map)
    "single" = Ok (general_ceiling_of c_level "single").
Proof.
  rewrite general_ceiling_map_lookup. unfold general_ceiling_of.
  destruct (String.eqb c_level "C9-C11"); reflexivity.
Qed.

Lemma general_room_get (c_level room_type : string) :
  dict_get (dict_get ACCOM_GENERAL_actual c_level general_default_ceiling_map)
    room_type (general_ceiling_of c_level "single")
  = general_ceiling_of c_level room_type.
Proof.
  rewrite general_ceiling_map_lookup. unfold general_ceiling_of.
  destruct (String.eqb c_level "C9-C11"); rewrite room_lookup; simpl;
    destruct (String.eqb_spec room_type "single") as [-> | _]; try reflexivity;
    destruct (String.eqb room_type "double"); reflexivity.
Qed.

Lemma private_double_item (c_level : string) :
  dict_item (dict_get ACCOM_TRAINING_PRIVATE c_level private_default_ceiling_map)
    "double" = Ok (private_ceiling_of c_level "double").
Proof.
  rewrite private_ceiling_map_lookup. unfold private_ceiling_of.
  destruct (String.eqb c_level "C9-C11"); reflexivity.
Qed.

Lemma private_room_get (c_level room_type : string) :
  dict_get (dict_get ACCOM_TRAINING_PRIVATE c_level private_default_ceiling_map)
    room_type (private_ceiling_of c_level "double")
  = private_ceiling_of c_level room_type.
Proof.
  rewrite private_ceiling_map_lookup. unfold private_ceiling_of.
  destruct (String.eqb c_level "C9-C11"); rewrite room_lookup; simpl;
    destruct (String.eqb_spec room_type "single") as [-> | _]; try reflexivity;
    destruct (String.eqb_spec room_type "double") as [-> | _]; reflexivity.
Qed.

Lemma general_ceiling_of_nonneg (c_level room_type : string) :
  0 <= general_ceiling_of c_level room_type.
Proof.
  unfold general_ceiling_of.
  destruct (String.eqb c_level "C9-C11"), (String.eqb room_type "double"); lia.
Qed.

Lemma private_ceiling_of_nonneg (c_level room_type : string) :
  0 <= private_ceiling_of c_level room_type.
Proof.
  unfold private_ceiling_of.
  destruct (String.eqb c_level "C9-C11"), (String.eqb room_type "single"); lia.
Qed.

(** The three functions with their lookups done. *)
Ltac eval_accommodation :=
  unfold validate_accommodation,
    _calc_general_accommodation, _calc_training_accommodation;
  rewrite ?general_single_item, ?private_double_item; cbn [Py.bind];
  rewrite ?general_room_get, ?private_room_get, ?lump_sum_rate_lookup.

(** ** Accommodation: the paths and the arguments the claims leave out *)

(** X1. A general trip paid as a lump sum at a whole number of baht a night,
    for any grade string: the rate is the manual rate when it is positive and
    otherwise 1200 for "C9-C11" and 800 for every other grade; the amount is
    [rate * nights], always approved, with no warning and no room type.  A
    manual rate that arrives as a float is multiplied in floating point, so
    with a positive manual rate the product is taken within [2 ^ 53], where
    that multiplication is exact. *)
Theorem general_lump_sum
    (c_level room_type training_venue : string)
    (nights : Z) (actual_cost : Q) (manual_rate : Z) :
  (0 < manual_rate -> Z.abs (manual_rate * nights) <= 2 ^ 53) ->
  let rate :=
    if 0 <? manual_rate then manual_rate
    else if String.eqb c_level "C9-C11" then 1200 else 800 in
  exists res,
    validate_accommodation c_level "lump_sum" nights actual_cost room_type
      false (inject_Z manual_rate) "general" training_venue = Ok res
    /\ accom_type res = "lump_sum"%string
    /\ accom_rate_per_night res = inject_Z rate
    /\ (accom_reimbursable_amount res == inject_Z (rate * nights))%Q
    /\ accom_total_allowed res = Some (accom_reimbursable_amount res)
    /\ accom_is_approved res = true
    /\ accom_warnings res = []
    /\ accom_room_type res = None.
Proof.
  intros _ rate. subst rate. eval_accommodation. simpl.
  eexists. split; [reflexivity |]. simpl.
  assert (Qltb 0 (inject_Z manual_rate) = (0 <? manual_rate)) as ->.
  { destruct (0 <? manual_rate) eqn:E.
    - apply Z.ltb_lt in E. apply Qltb_true.
      change 0%Q with (inject_Z 0). rewrite <- Zlt_Qlt. exact E.
    - apply Z.ltb_ge in E. apply Qltb_false.
      change 0%Q with (inject_Z 0). rewrite <- Zle_Qle. exact E. }
  split; [reflexivity |]. split; [destruct (0 <? manual_rate); reflexivity |].
  split; [| repeat split].
  destruct (0 <? manual_rate); cbv iota;
    rewrite inject_Z_mult; reflexivity.
Qed.

Lemma general_lump_sum_witness :
  exists res,
    validate_accommodation "C1-C8" "lump_sum" 3 0 "single" false 1000
      "general" "" = Ok res
    /\ (accom_reimbursable_amount res == 3000)%Q.
Proof.
  destruct (general_lump_sum "C1-C8" "single" "" 3 0 1000)
    as (res & Hres & _ & _ & Hamount & _).
  { intros _. discriminate. }
  exists res. split; [exact Hres | exact Hamount].
Defined.

(** X2. Training at a state venue is a general trip with one more warning:
    for any arguments the two results carry the same type, nights, rate,
    ceiling, amount and approval, and the warnings of the state venue are the
    state-venue notice followed by those of the general trip in the wording
    of the state venue. *)
Theorem state_venue_as_general
    (c_level expense_type : string) (nights : Z) (actual_cost : Q)
    (room_type : string) (manual_rate : Q) (training_venue : string) :
  exists general state,
    validate_accommodation c_level expense_type nights actual_cost room_type
      false manual_rate "general" training_venue = Ok general
    /\ validate_accommodation c_level expense_type nights actual_cost room_type
         false manual_rate "training" "state" = Ok state
    /\ accom_amounts state = accom_amounts general
    /\ accom_room_type state = accom_room_type general
    /\ accom_warnings state
       = WarnStateVenue :: map state_wording (accom_warnings general).
Proof.
  eval_accommodation. simpl.
  destruct (String.eqb expense_type "lump_sum").
  - do 2 eexists. split; [reflexivity |]. split; [reflexivity |]. repeat split.
  - do 2 eexists. split; [reflexivity |]. split; [reflexivity |].
    split; [reflexivity |]. split; [reflexivity |]. simpl.
    destruct (negb _); reflexivity.
Qed.

(** X3. A grade outside the table is paid as C1-C8 on every path and with
    either method: the amounts of the result are those of the same call with
    "C1-C8". *)
Theorem unknown_grade_as_junior
    (c_level expense_type : string) (nights : Z) (actual_cost : Q)
    (room_type : string) (is_vehicle_sleep : bool) (manual_rate : Q)
    (trip_type training_venue : string) :
  c_level <> "C9-C11"%string ->
  exists res junior,
    validate_accommodation c_level expense_type nights actual_cost room_type
      is_vehicle_sleep manual_rate trip_type training_venue = Ok res
    /\ validate_accommodation "C1-C8" expense_type nights actual_cost room_type
         is_vehicle_sleep manual_rate trip_type training_venue = Ok junior
    /\ accom_amounts res = accom_amounts junior.
Proof.
  intros Hc. apply String.eqb_neq in Hc.
  eval_accommodation.
  unfold general_ceiling_of, private_ceiling_of. rewrite Hc. simpl.
  destruct is_vehicle_sleep; [do 2 eexists; repeat split |].
  destruct (String.eqb trip_type "general"),
    (String.eqb expense_type "lump_sum"),
    (String.eqb training_venue "state");
    do 2 eexists; (split; [reflexivity |]); (split; [reflexivity |]); reflexivity.
Qed.

Lemma unknown_grade_as_junior_witness :
  exists res,
    validate_accommodation "C12" "actual" 2 5000 "single" false 0
      "training" "private" = Ok res
    /\ accom_reimbursable_amount res = 3200%Q.
Proof.
  destruct (unknown_grade_as_junior "C12" "actual" 2 5000 "single" false 0
              "training" "private")
    as (res & junior & Hres & Hjunior & Heq).
  - discriminate.
  - exists res. split; [exact Hres |].
    vm_compute in Hjunior. injection Hjunior as <-.
    injection Heq as _ _ _ _ _ _ _ -> _. reflexivity.
Defined.

(** X4. A room type outside the table is given the single-room ceiling on a
    general trip and at a state venue, but the double-room ceiling at a
    private venue. *)
Theorem unknown_room_type_ceiling
    (c_level expense_type room_type : string) (nights : Z)
    (actual_cost manual_rate : Q) (training_venue : string) :
  room_type <> "single"%string -> room_type <> "double"%string ->
  String.eqb expense_type "lump_sum" = false ->
  let call room trip venue :=
    validate_accommodation c_level expense_type nights actual_cost room
      false manual_rate trip venue in
  (exists res single,
     call room_type "general" training_venue = Ok res
     /\ call "single"%string "general" training_venue = Ok single
     /\ accom_amounts res = accom_amounts single)
  /\ (exists res single,
        call room_type "training" "state" = Ok res
        /\ call "single"%string "training" "state" = Ok single
        /\ accom_amounts res = accom_amounts single)
  /\ (exists res double,
        call room_type "training" "private" = Ok res
        /\ call "double"%string "training" "private" = Ok double
        /\ accom_amounts res = accom_amounts double).
Proof.
  intros Hs Hd He call. subst call. cbv beta.
  apply String.eqb_neq in Hs, Hd.
  eval_accommodation. rewrite He. simpl.
  unfold general_ceiling_of, private_ceiling_of. rewrite Hs, Hd. simpl.
  repeat split; do 2 eexists;
    (split; [reflexivity |]); (split; [reflexivity |]); reflexivity.
Qed.

Lemma unknown_room_type_ceiling_witness :
  (exists res,
     validate_accommodation "C1-C8" "actual" 1 9999 "suite" false 0
       "general" "private" = Ok res
     /\ accom_reimbursable_amount res = 1500%Q)
  /\ (exists res,
        validate_accommodation "C1-C8" "actual" 1 9999 "suite" false 0
          "training" "private" = Ok res
        /\ accom_reimbursable_amount res = 1000%Q).
Proof.
  destruct (unknown_room_type_ceiling "C1-C8" "actual" "suite" 1 9999 0 "private")
    as ((r1 & s1 & H1 & Hs1 & E1) & _ & (r3 & d3 & H3 & Hd3 & E3));
    try discriminate; try reflexivity.
  split.
  - exists r1. split; [exact H1 |].
    vm_compute in Hs1. injection Hs1 as <-.
    injection E1 as _ _ _ _ _ _ _ -> _. reflexivity.
  - exists r3. split; [exact H3 |].
    vm_compute in Hd3. injection Hd3 as <-.
    injection E3 as _ _ _ _ _ _ _ -> _. reflexivity.
Defined.


(** X5. Any [expense_type] other than "lump_sum" is handled as an actual
    cost, whatever the other strings are: the result carries a total ceiling
    and the actual cost; a cost within the ceiling is approved and reimbursed
    in full, a cost above it is not approved and reimbursed at the ceiling;
    the amount never exceeds what was spent. *)
Theorem actual_cost_refund
    (c_level expense_type : string) (nights : Z) (actual_cost : Q)
    (room_type : string) (manual_rate : Q) (trip_type training_venue : string) :
  String.eqb expense_type "lump_sum" = false ->
  exists res total_ceiling,
    validate_accommodation c_level expense_type nights actual_cost room_type
      false manual_rate trip_type training_venue = Ok res
    /\ accom_type res = "actual"%string
    /\ accom_total_ceiling res = Some total_ceiling
    /\ accom_actual_cost res = Some actual_cost
    /\ ((actual_cost <= inject_Z total_ceiling)%Q ->
        accom_is_approved res = true
        /\ accom_reimbursable_amount res = actual_cost)
    /\ ((inject_Z total_ceiling < actual_cost)%Q ->
        accom_is_approved res = false
        /\ accom_reimbursable_amount res = inject_Z total_ceiling)
    /\ (accom_reimbursable_amount res <= actual_cost)%Q.
Proof.
  intros He. eval_accommodation. rewrite He. simpl.
  assert (Hcap : forall tc : Z,
             ((actual_cost <= inject_Z tc)%Q ->
              Qle_bool actual_cost (inject_Z tc) = true
              /\ Py.min actual_cost (inject_Z tc) = actual_cost)
             /\ ((inject_Z tc < actual_cost)%Q ->
                 Qle_bool actual_cost (inject_Z tc) = false
                 /\ Py.min actual_cost (inject_Z tc) = inject_Z tc)
             /\ (Py.min actual_cost (inject_Z tc) <= actual_cost)%Q).
  { intros tc. split; [| split].
    - intros H. split; [apply Qle_bool_iff; exact H | apply py_min_l; exact H].
    - intros H. split; [apply Qle_bool_false; exact H | apply py_min_r; exact H].
    - apply py_min_le_l. }
  destruct (String.eqb trip_type "general");
    [| destruct (String.eqb training_venue "state")];
    do 2 eexists; (split; [reflexivity |]); simpl;
    (split; [reflexivity |]); (split; [reflexivity |]);
    (split; [reflexivity |]); apply Hcap.
Qed.

Lemma actual_cost_refund_witness :
  exists res,
    validate_accommodation "C9-C11" "receipt" 2 4000 "single" false 0
      "general" "private" = Ok res
    /\ accom_is_approved res = true
    /\ accom_reimbursable_amount res = 4000%Q.
Proof.
  destruct (actual_cost_refund "C9-C11" "receipt" 2 4000 "single" 0
              "general" "private" eq_refl)
    as (res & tc & Hres & _ & Htc & _ & Hin & _).
  exists res. split; [exact Hres |]. apply Hin.
  vm_compute in Hres. injection Hres as <-.
  injection Htc as <-. discriminate.
Defined.

(** X6. The double-room notice for C1-C8 is raised at a private training
    venue only: the warnings contain it exactly when the call is not a
    vehicle sleep, the trip type is not "general", the venue is not "state",
    the grade is "C1-C8" and the room type is "single". *)
Theorem junior_single_room_warning
    (c_level expense_type : string) (nights : Z) (actual_cost : Q)
    (room_type : string) (is_vehicle_sleep : bool) (manual_rate : Q)
    (trip_type training_venue : string) :
  exists res,
    validate_accommodation c_level expense_type nights actual_cost room_type
      is_vehicle_sleep manual_rate trip_type training_venue = Ok res
    /\ (In WarnJuniorSingleRoom (accom_warnings res)
        <-> is_vehicle_sleep = false
            /\ trip_type <> "general"%string
            /\ training_venue <> "state"%string
            /\ c_level = "C1-C8"%string
            /\ room_type = "single"%string).
Proof.
  eval_accommodation.
  destruct is_vehicle_sleep.
  { eexists. split; [reflexivity |]. simpl. split; [tauto | intros (H & _); discriminate]. }
  destruct (String.eqb_spec trip_type "general") as [Ht | Ht].
  { destruct (String.eqb expense_type "lump_sum");
      (eexists; split; [reflexivity |]; simpl;
       split; [| intros (_ & H & _); contradiction]).
    - tauto.
    - destruct (negb _); simpl; intuition discriminate. }
  destruct (String.eqb_spec training_venue "state") as [Hv | Hv].
  { destruct (String.eqb expense_type "lump_sum");
      (eexists; split; [reflexivity |]; simpl;
       split; [| intros (_ & _ & H & _); contradiction]).
    - intuition discriminate.
    - destruct (negb _); simpl; intuition discriminate. }
  destruct (String.eqb_spec c_level "C1-C8") as [Hc | Hc];
    destruct (String.eqb_spec room_type "single") as [Hr | Hr];
    destruct (String.eqb expense_type "lump_sum");
    (eexists; split; [reflexivity |]); simpl;
    try destruct (negb _); simpl; intuition (try discriminate; try contradiction).
Qed.

(** X7. The method decides which amount is read: a lump-sum call ignores the
    actual cost, and a call with any other method ignores the manual rate. *)
Theorem accommodation_unused_amounts
    (c_level expense_type : string) (nights : Z) (actual_cost actual_cost' : Q)
    (room_type : string) (is_vehicle_sleep : bool)
    (manual_rate manual_rate' : Q) (trip_type training_venue : string) :
  validate_accommodation c_level "lump_sum" nights actual_cost room_type
    is_vehicle_sleep manual_rate trip_type training_venue
  = validate_accommodation c_level "lump_sum" nights actual_cost' room_type
      is_vehicle_sleep manual_rate trip_type training_venue
  /\ (String.eqb expense_type "lump_sum" = false ->
      validate_accommodation c_level expense_type nights actual_cost room_type
        is_vehicle_sleep manual_rate trip_type training_venue
      = validate_accommodation c_level expense_type nights actual_cost room_type
          is_vehicle_sleep manual_rate' trip_type training_venue).
Proof.
  split.
  - eval_accommodation. simpl. reflexivity.
  - intros He. eval_accommodation. rewrite He. reflexivity.
Qed.

(** X8. The amount never decreases when the actual cost or the number of
    nights grows, on every path and with either method, whatever the manual
    rate is: a manual rate that is not positive is replaced by the table
    rate, so no rate is ever negative. *)
Theorem accommodation_monotone
    (c_level expense_type : string) (nights nights' : Z)
    (actual_cost actual_cost' : Q) (room_type : string)
    (is_vehicle_sleep : bool) (manual_rate : Q)
    (trip_type training_venue : string) :
  nights <= nights' -> (actual_cost <= actual_cost')%Q ->
  exists res res',
    validate_accommodation c_level expense_type nights actual_cost room_type
      is_vehicle_sleep manual_rate trip_type training_venue = Ok res
    /\ validate_accommodation c_level expense_type nights' actual_cost' room_type
         is_vehicle_sleep manual_rate trip_type training_venue = Ok res'
    /\ (0 <= accom_rate_per_night res)%Q
    /\ (accom_reimbursable_amount res <= accom_reimbursable_amount res')%Q.
Proof.
  intros Hn Ha.
  assert (Hlump : forall table : Z, 0 <= table ->
            let rate := if Qltb 0 manual_rate then manual_rate else inject_Z table in
            (0 <= rate)%Q /\ (rate * inject_Z nights <= rate * inject_Z nights')%Q).
  { intros table Ht rate.
    assert (Hr : (0 <= rate)%Q).
    { subst rate. destruct (Qltb 0 manual_rate) eqn:E.
      - apply Qltb_true in E. lra.
      - change 0%Q with (inject_Z 0). rewrite <- Zle_Qle. exact Ht. }
    split; [exact Hr |].
    rewrite Zle_Qle in Hn. generalize dependent (inject_Z nights).
    generalize dependent (inject_Z nights'). intros; nra. }
  assert (Hcap : forall ceiling : Z, 0 <= ceiling ->
            (0 <= inject_Z ceiling)%Q
            /\ (Py.min actual_cost (inject_Z (ceiling * nights))
                <= Py.min actual_cost' (inject_Z (ceiling * nights')))%Q).
  { intros ceiling Hc. split.
    - change 0%Q with (inject_Z 0). rewrite <- Zle_Qle. exact Hc.
    - apply py_min_glb.
      + pose proof (py_min_le_l actual_cost (inject_Z (ceiling * nights))). lra.
      + pose proof (py_min_le_r actual_cost (inject_Z (ceiling * nights))) as H.
        assert (H' : (inject_Z (ceiling * nights) <= inject_Z (ceiling * nights'))%Q).
        { rewrite <- Zle_Qle. apply Z.mul_le_mono_nonneg_l; assumption. }
        lra. }
  pose proof (general_ceiling_of_nonneg c_level room_type) as Hg.
  pose proof (private_ceiling_of_nonneg c_level room_type) as Hp.
  assert (Ht : 0 <= (if String.eqb c_level "C9-C11" then 1200 else 800))
    by (destruct (String.eqb c_level "C9-C11"); lia).
  eval_accommodation.
  destruct is_vehicle_sleep.
  { do 2 eexists. split; [reflexivity |]. split; [reflexivity |]. simpl.
    split; discriminate. }
  destruct (String.eqb trip_type "general");
    [| destruct (String.eqb training_venue "state")];
    destruct (String.eqb expense_type "lump_sum");
    do 2 eexists; (split; [reflexivity |]); (split; [reflexivity |]); simpl;
    try (apply Hlump; assumption); try (apply Hcap; assumption).
  (* private venue, lump sum *)
  split; [change 0%Q with (inject_Z 0); rewrite <- Zle_Qle; exact Hp |].
  rewrite <- Zle_Qle. apply Z.mul_le_mono_nonneg_l; assumption.
Qed.

Lemma accommodation_monotone_witness :
  exists res res',
    validate_accommodation "C1-C8" "lump_sum" 1 0 "single" false (-50)
      "general" "private" = Ok res
    /\ validate_accommodation "C1-C8" "lump_sum" 3 0 "single" false (-50)
         "general" "private" = Ok res'
    /\ (0 <= accom_rate_per_night res)%Q
    /\ (accom_reimbursable_amount res <= accom_reimbursable_amount res')%Q.
Proof.
  apply (accommodation_monotone "C1-C8" "lump_sum" 1 3 0 0 "single" false (-50)
           "general" "private"); discriminate.
Defined.


(** ** Per diem: rounding, order and the zero cases *)

(** X9. On a window that does not end before it starts and is shorter than
    [2 ^ 34] seconds, where the float [total_seconds()] orders durations as
    the exact ones, the day count of an overnight trip is the duration
    rounded to the nearest whole day, a tie of exactly half a day going down:
    it is a whole number [d] with [d days - 12h < duration <= d days + 12h]. *)
Theorem overnight_rounds_to_nearest_day
    (start_time end_time : datetime) (c_level : string) (meals : Z) :
  start_time <= end_time ->
  end_time - start_time < 2 ^ 34 * second_us ->
  exists d : Z,
    days_count (calculate_per_diem start_time end_time true c_level meals)
    = inject_Z d
    /\ 0 <= d
    /\ d * day_us - 12 * hour_us < end_time - start_time
    /\ end_time - start_time <= d * day_us + 12 * hour_us.
Proof.
  intros Hw _.
  rewrite days_count_overnight, overnight_days_us.
  set (us := end_time - start_time).
  assert (0 <= us) as Hus by (subst us; lia).
  eexists. split; [reflexivity |].
  pose proof (Z.div_mod us day_us) as Hdm.
  pose proof (Z.mod_pos_bound us day_us) as Hb.
  assert (0 <= us / day_us) as Hq
    by (apply Z.div_pos; [exact Hus | reflexivity]).
  unfold day_us, hour_us, second_us in *.
  destruct (12 * (3600 * 1000000) <? us mod (24 * (3600 * 1000000))) eqn:E;
    [apply Z.ltb_lt in E | apply Z.ltb_ge in E]; lia.
Qed.

Lemma overnight_rounds_to_nearest_day_witness :
  days_count (calculate_per_diem 0 (36 * hour_us) true "C1-C8" 0) = 1%Q
  /\ days_count (calculate_per_diem 0 (36 * hour_us + second_us) true "C1-C8" 0)
     = 2%Q.
Proof.
  destruct (overnight_rounds_to_nearest_day 0 (36 * hour_us) "C1-C8" 0)
    as (d & Hd & H0 & Hlo & Hhi); [discriminate | reflexivity |].
  destruct (overnight_rounds_to_nearest_day 0 (36 * hour_us + second_us)
              "C1-C8" 0)
    as (d' & Hd' & H0' & Hlo' & Hhi'); [discriminate | reflexivity |].
  rewrite Hd, Hd'. unfold day_us, hour_us, second_us in *.
  assert (d = 1) as -> by lia. assert (d' = 2) as -> by lia.
  split; reflexivity.
Defined.

Lemma overnight_days_mono (us us' : Z) :
  us <= us' -> overnight_days (total_seconds us) <= overnight_days (total_seconds us').
Proof.
  intros H. rewrite !overnight_days_us.
  pose proof (Z.div_mod us day_us) as Hdm.
  pose proof (Z.mod_pos_bound us day_us) as Hb.
  pose proof (Z.div_mod us' day_us) as Hdm'.
  pose proof (Z.mod_pos_bound us' day_us) as Hb'.
  unfold day_us, hour_us, second_us in *.
  destruct (12 * (3600 * 1000000) <? us mod (24 * (3600 * 1000000))) eqn:E;
    [apply Z.ltb_lt in E | apply Z.ltb_ge in E];
    destruct (12 * (3600 * 1000000) <? us' mod (24 * (3600 * 1000000))) eqn:E';
    [apply Z.ltb_lt in E' | apply Z.ltb_ge in E' | apply Z.ltb_lt in E'
    | apply Z.ltb_ge in E']; lia.
Qed.

(** X10. A longer window never counts fewer days, overnight or not, and so
    never has a smaller base amount. *)
Theorem per_diem_days_monotone
    (start_time end_time start_time' end_time' : datetime)
    (is_overnight : bool) (c_level : string) (meals : Z) :
  end_time - start_time <= end_time' - start_time' ->
  let res := calculate_per_diem start_time end_time is_overnight c_level meals in
  let res' := calculate_per_diem start_time' end_time' is_overnight c_level meals in
  (days_count res <= days_count res')%Q
  /\ (base_amount res <= base_amount res')%Q.
Proof.
  intros H res res'.
  assert (Hd : (days_count res <= days_count res')%Q).
  { subst res res'. destruct is_overnight.
    - rewrite !days_count_overnight. rewrite <- Zle_Qle.
      apply overnight_days_mono. exact H.
    - rewrite !days_count_day_trip, !day_trip_days_us.
      unfold hour_us, second_us.
      repeat match goal with
             | |- context [?a <? ?b] =>
                 let E := fresh "E" in
                 destruct (a <? b) eqn:E;
                 [apply Z.ltb_lt in E | apply Z.ltb_ge in E]
             end; try discriminate; lia. }
  split; [exact Hd |].
  subst res res'. rewrite !base_amount_eq. simpl rate_per_day.
  pose proof (per_diem_rate_nonneg c_level) as Hr.
  rewrite Zle_Qle in Hr. change (inject_Z 0) with 0%Q in Hr.
  generalize dependent (inject_Z (dict_get PER_DIEM_RATES c_level 240)).
  intros rate Hrate. nra.
Qed.

Lemma per_diem_days_monotone_witness :
  (days_count (calculate_per_diem 0 (13 * hour_us) true "C1-C8" 0)
   <= days_count (calculate_per_diem 0 (37 * hour_us) true "C1-C8" 0))%Q.
Proof.
  apply (per_diem_days_monotone 0 (13 * hour_us) 0 (37 * hour_us) true "C1-C8" 0).
  discriminate.
Defined.

(** X11. An overnight trip of at most 12 hours counts no day and pays
    nothing, whatever the grade and the meals; the same window as a day trip
    counts half a day as soon as it exceeds 6 hours. *)
Theorem short_overnight_pays_nothing
    (start_time end_time : datetime) (c_level : string) (meals : Z) :
  0 <= end_time - start_time -> end_time - start_time <= 12 * hour_us ->
  let res := calculate_per_diem start_time end_time true c_level meals in
  (days_count res == 0)%Q /\ (base_amount res == 0)%Q /\ (net_amount res == 0)%Q
  /\ (6 * hour_us < end_time - start_time ->
      (days_count (calculate_per_diem start_time end_time false c_level meals)
       == 1 # 2)%Q).
Proof.
  intros H0 H12 res.
  assert (Hd : days_count res = inject_Z 0).
  { subst res. rewrite days_count_overnight, overnight_days_us.
    set (us := end_time - start_time) in *.
    unfold day_us, hour_us, second_us in *.
    rewrite Z.div_small, Z.mod_small by lia.
    destruct (_ <? us) eqn:E; [apply Z.ltb_lt in E; lia | reflexivity]. }
  assert (Hb : (base_amount res == 0)%Q).
  { subst res. rewrite base_amount_eq, Hd. change (inject_Z 0) with 0%Q. ring. }
  split; [rewrite Hd; reflexivity |]. split; [exact Hb |]. split.
  - subst res. destruct (Z_lt_le_dec 0 meals) as [Hm | Hm].
    + destruct (net_with_meals start_time end_time true c_level meals Hm)
        as [Hded ->].
      rewrite py_max_Qmax, Hb. apply Q.max_l.
      rewrite Hded. simpl rate_per_day.
      pose proof (per_diem_rate_nonneg c_level) as Hr.
      rewrite Zle_Qle in Hr. change (inject_Z 0) with 0%Q in Hr.
      assert (Hmq : (0 <= inject_Z meals)%Q)
        by (change 0%Q with (inject_Z 0); rewrite <- Zle_Qle; lia).
      generalize dependent (inject_Z (dict_get PER_DIEM_RATES c_level 240)).
      intros rate Hrate.
      assert (0 <= rate / 3 * inject_Z meals)%Q.
      { apply Qmult_le_0_compat; [| exact Hmq].
        apply Qle_shift_div_l; [reflexivity |]. lra. }
      lra.
    + rewrite net_without_meals by exact Hm. exact Hb.
  - intros H6. rewrite days_count_day_trip, day_trip_days_us.
    destruct (12 * hour_us <? _) eqn:E; [apply Z.ltb_lt in E; lia |].
    destruct (6 * hour_us <? _) eqn:E'; [reflexivity | apply Z.ltb_ge in E'; lia].
Qed.

Lemma short_overnight_pays_nothing_witness :
  (net_amount (calculate_per_diem 0 (8 * hour_us) true "C9-C11" 0) == 0)%Q
  /\ (days_count (calculate_per_diem 0 (8 * hour_us) false "C9-C11" 0) == 1 # 2)%Q.
Proof.
  destruct (short_overnight_pays_nothing 0 (8 * hour_us) "C9-C11" 0)
    as (_ & _ & Hnet & Hday); try discriminate.
  split; [exact Hnet | apply Hday; reflexivity].
Defined.


(** X12. With meals provided on a window that does not end before it starts:
    the net amount never exceeds the base amount; it is the base amount less
    a third of the daily rate for each meal as long as the meals are at most
    three a counted day, and nothing from three meals a counted day on. *)
Theorem per_diem_net_amount
    (start_time end_time : datetime) (is_overnight : bool)
    (c_level : string) (meals : Z) :
  start_time <= end_time -> 0 <= meals ->
  let res := calculate_per_diem start_time end_time is_overnight c_level meals in
  (net_amount res <= base_amount res)%Q
  /\ ((inject_Z meals <= 3 * days_count res)%Q ->
      (net_amount res
       == base_amount res - inject_Z (rate_per_day res) / 3 * inject_Z meals)%Q)
  /\ ((3 * days_count res <= inject_Z meals)%Q -> (net_amount res == 0)%Q).
Proof.
  intros Hw Hm res.
  pose proof (per_diem_net start_time end_time is_overnight c_level meals Hw Hm)
    as Hnet.
  pose proof (per_diem_deduction start_time end_time is_overnight c_level meals Hm)
    as Hded.
  pose proof (base_amount_nonneg start_time end_time is_overnight c_level meals Hw)
    as Hbase.
  pose proof (base_amount_eq start_time end_time is_overnight c_level meals)
    as Hbeq.
  pose proof (rate_per_day_nonneg start_time end_time is_overnight c_level meals)
    as Hrate.
  fold res in Hnet, Hded, Hbase, Hbeq, Hrate.
  rewrite Zle_Qle in Hrate, Hm. change (inject_Z 0) with 0%Q in Hrate, Hm.
  rewrite Hnet, Hded, Hbeq. rewrite Hbeq in Hbase. clear Hnet Hded Hbeq.
  set (days := days_count res) in *.
  set (m := inject_Z meals) in *.
  set (rate := inject_Z (rate_per_day res)) in *.
  clearbody days m rate.
  assert (Hthird : (rate / 3 * m == rate * m * (1 # 3))%Q) by field.
  rewrite !Hthird.
  split; [| split].
  - apply Q.max_lub; nra.
  - intros H. rewrite Q.max_r; [reflexivity | nra].
  - intros H. rewrite Q.max_l; [reflexivity | nra].
Qed.

Lemma per_diem_net_amount_witness :
  (net_amount (calculate_per_diem 0 (48 * hour_us) true "C1-C8" 3) == 240)%Q.
Proof.
  destruct (per_diem_net_amount 0 (48 * hour_us) true "C1-C8" 3)
    as (_ & Hnet & _); try discriminate.
  cbv zeta in Hnet. rewrite Hnet; [reflexivity | discriminate].
Defined.

(** X13. Outside the accommodation, too, any grade other than "C9-C11" is
    junior: the daily rate is 270 for "C9-C11" and 240 for every other
    string, and a training meal budget is "Type A" for "C9-C11" and "Type B"
    otherwise. *)
Theorem grade_defaults
    (start_time end_time : datetime) (is_overnight : bool)
    (c_level : string) (meals : Z) (v : Venue) (meal_count snack_count : Z) :
  rate_per_day (calculate_per_diem start_time end_time is_overnight c_level meals)
  = (if String.eqb c_level "C9-C11" then 270 else 240)
  /\ exists res,
       calculate_training_meal_allowance c_level (venue_key v)
         meal_count snack_count = Ok res
       /\ meal_training_type res
          = (if String.eqb c_level "C9-C11" then "Type A" else "Type B")%string
       /\ (meal_rate res, snack_rate res)
          = match v, String.eqb c_level "C9-C11" with
            | StateFacility, true => (400, 35)
            | StateFacility, false => (200, 35)
            | PrivateFacility, true => (700, 50)
            | PrivateFacility, false => (400, 50)
            end.
Proof.
  split.
  - unfold calculate_per_diem. simpl rate_per_day. apply per_diem_rate_lookup.
  - unfold calculate_training_meal_allowance.
    destruct (String.eqb c_level "C9-C11"), v;
      (eexists; split; [reflexivity |]); split; reflexivity.
Qed.

(** X14. The training meal call returns exactly for the venues "state" and
    "private"; with any other venue it raises [KeyError] on that venue,
    whatever the grade and the counts. *)
Theorem training_meal_venue_required
    (c_level venue : string) (meal_count snack_count : Z) :
  match calculate_training_meal_allowance c_level venue meal_count snack_count with
  | Ok res =>
      (venue = "state" \/ venue = "private")%string /\ meal_venue res = venue
  | Raise e =>
      e = KeyError venue /\ venue <> "state"%string /\ venue <> "private"%string
  end.
Proof.
  assert (Hknown : forall v : Venue,
             exists res,
               calculate_training_meal_allowance c_level (venue_key v)
                 meal_count snack_count = Ok res
               /\ meal_venue res = venue_key v).
  { intros v. unfold calculate_training_meal_allowance.
    destruct (String.eqb c_level "C9-C11"), v;
      (eexists; split; reflexivity). }
  destruct (String.eqb_spec venue "state") as [-> | Hs].
  { destruct (Hknown StateFacility) as (res & Hres & Hv).
    cbn [venue_key] in Hres, Hv. rewrite Hres. auto. }
  destruct (String.eqb_spec venue "private") as [-> | Hp].
  { destruct (Hknown PrivateFacility) as (res & Hres & Hv).
    cbn [venue_key] in Hres, Hv. rewrite Hres. auto. }
  rewrite training_meal_unknown_venue by assumption. auto.
Qed.

(** X15. The training meal budget grows with the counts and with the
    standing of the venue and of the grade: for counts that are not negative,
    more meals or snacks never lower the total, a private venue is never
    below a state venue, and Senior never below Junior. *)
Theorem training_meal_budget_order
    (g : Grade) (v : Venue) (meal_count snack_count meal_count' snack_count' : Z) :
  0 <= meal_count <= meal_count' -> 0 <= snack_count <= snack_count' ->
  exists res more state private junior senior,
    calculate_training_meal_allowance (grade_key g) (venue_key v)
      meal_count snack_count = Ok res
    /\ calculate_training_meal_allowance (grade_key g) (venue_key v)
         meal_count' snack_count' = Ok more
    /\ calculate_training_meal_allowance (grade_key g) "state"
         meal_count snack_count = Ok state
    /\ calculate_training_meal_allowance (grade_key g) "private"
         meal_count snack_count = Ok private
    /\ calculate_training_meal_allowance "C1-C8" (venue_key v)
         meal_count snack_count = Ok junior
    /\ calculate_training_meal_allowance "C9-C11" (venue_key v)
         meal_count snack_count = Ok senior
    /\ grand_total res <= grand_total more
    /\ grand_total state <= grand_total private
    /\ grand_total junior <= grand_total senior.
Proof.
  intros Hm Hs.
  destruct g, v; do 6 eexists;
    repeat (split; [reflexivity |]); simpl; lia.
Qed.

Lemma training_meal_budget_order_witness :
  exists state private,
    calculate_training_meal_allowance "C1-C8" "state" 2 1 = Ok state
    /\ calculate_training_meal_allowance "C1-C8" "private" 2 1 = Ok private
    /\ grand_total state <= grand_total private.
Proof.
  destruct (training_meal_budget_order Junior StateFacility 2 1 2 1)
    as (_ & _ & state & private & _ & _ & _ & _ & Hs & Hp & _ & _ & _ & Hle & _);
    try lia.
  exists state, private. auto.
Defined.

(** ** Private vehicle and taxi cap *)

(** X16. Mileage is paid at 4 baht a kilometre for "private_car" and at 2
    for every other vehicle type, known or not; the amount is additive in the
    distance, and a car is paid twice what any other type is. *)
Theorem transportation_rates
    (vehicle_type : string) (distance_km distance_km' : Q) :
  let amount v d := transport_reimbursable_amount (calculate_transportation v d) in
  transport_rate (calculate_transportation vehicle_type distance_km)
  = (if String.eqb vehicle_type "private_car" then 4 else 2)
  /\ (amount vehicle_type distance_km
      == distance_km
         * inject_Z (transport_rate
                       (calculate_transportation vehicle_type distance_km)))%Q
  /\ (amount vehicle_type (distance_km + distance_km')%Q
      == amount vehicle_type distance_km + amount vehicle_type distance_km')%Q
  /\ (String.eqb vehicle_type "private_car" = false ->
      (amount "private_car"%string distance_km
       == 2 * amount vehicle_type distance_km)%Q).
Proof.
  intros amount. subst amount. unfold calculate_transportation. simpl.
  split; [reflexivity |]. split; [reflexivity |]. split.
  - destruct (String.eqb vehicle_type "private_car");
      match goal with
      | |- context [inject_Z ?z] => change (inject_Z z) with (z # 1)
      end; ring.
  - intros ->. change (inject_Z 4) with 4%Q. change (inject_Z 2) with 2%Q. ring.
Qed.

(** X17. The taxi cap never pays more than the fare, never decreases when
    the fare grows, and capping a capped fare again changes nothing. *)
Theorem taxi_cap_properties (route_type : string) (actual_cost actual_cost' : Q) :
  let capped a := taxi_reimbursable_amount (validate_taxi route_type a) in
  (capped actual_cost <= actual_cost)%Q
  /\ ((actual_cost <= actual_cost')%Q -> (capped actual_cost <= capped actual_cost')%Q)
  /\ capped (capped actual_cost) = capped actual_cost.
Proof.
  intros capped. subst capped. unfold validate_taxi. simpl.
  assert (Hmin : forall l : Q,
             (Py.min actual_cost l <= actual_cost)%Q
             /\ ((actual_cost <= actual_cost')%Q ->
                 (Py.min actual_cost l <= Py.min actual_cost' l)%Q)
             /\ Py.min (Py.min actual_cost l) l = Py.min actual_cost l).
  { intros l. split; [apply py_min_le_l |]. split.
    - intros H. apply py_min_glb; [| apply py_min_le_r].
      pose proof (py_min_le_l actual_cost l). lra.
    - apply py_min_l. apply py_min_le_r. }
  destruct (String.eqb route_type "cross_bkk"); simpl; [apply Hmin |].
  destruct (String.eqb route_type "cross_other"); simpl; [apply Hmin |].
  split; [apply Qle_refl |]. split; [tauto | reflexivity].
Qed.


(** ** Taxi meter: the fare the body computes *)





(** X20. That computed fare never decreases when the distance or the traffic
    time grows or when a surcharge is switched on. *)
Theorem taxi_meter_computed_fare_monotone
    (d1 d2 : Q) (t1 t2 : Z) (b1 b2 a1 a2 : bool) :
  (d1 <= d2)%Q -> t1 <= t2 -> implb b1 b2 = true -> implb a1 a2 = true ->
  (local_total_fare (taxi_meter_locals d1 t1 b1 a1)
   <= local_total_fare (taxi_meter_locals d2 t2 b2 a2))%Q.
Proof. apply taxi_meter_total_fare_mono. Qed.

Lemma taxi_meter_computed_fare_monotone_witness :
  (local_total_fare (taxi_meter_locals 5 0 false true)
   <= local_total_fare (taxi_meter_locals 25 10 true true))%Q.
Proof.
  apply (taxi_meter_computed_fare_monotone 5 25 0 10 false true true true);
    try discriminate; reflexivity.
Defined.


(** ** Thai words: digits in and out *)

Lemma digit_of_value (n : N) :
  (n < 10)%N -> N.of_nat (digit_value (digit_of n)) = n.
Proof.
  intros H.
  assert (Hm : (N.to_nat n < 10)%nat) by lia.
  rewrite <- (N2Nat.id n). revert Hm. generalize (N.to_nat n). intros m Hm.
  do 10 (destruct m as [| m]; [reflexivity |]). lia.
Qed.

Lemma int_of_digits_from (number_str : list digit) (acc : N) :
  fold_left (fun acc d => (10 * acc + N.of_nat (digit_value d))%N) number_str acc
  = (acc * 10 ^ N.of_nat (length number_str) + int_of_digits number_str)%N.
Proof.
  unfold int_of_digits. revert acc.
  induction number_str as [| d s IH]; intros acc.
  - simpl. lia.
  - cbn [fold_left length]. rewrite IH, (IH (10 * 0 + _)%N).
    rewrite Nat2N.inj_succ, N.pow_succ_r'. lia.
Qed.

Lemma int_of_digits_cons (d : digit) (number_str : list digit) :
  int_of_digits (d :: number_str)
  = (N.of_nat (digit_value d) * 10 ^ N.of_nat (length number_str)
     + int_of_digits number_str)%N.
Proof.
  unfold int_of_digits at 1. cbn [fold_left].
  rewrite int_of_digits_from. f_equal.
Qed.

Lemma int_of_digits_zero (number_str : list digit) :
  int_of_digits number_str = 0%N <-> Forall (eq dig0) number_str.
Proof.
  induction number_str as [| d s IH].
  - split; [constructor | reflexivity].
  - rewrite int_of_digits_cons. split.
    + intros H.
      assert (Hd : N.of_nat (digit_value d) = 0%N).
      { pose proof (N.pow_nonzero 10 (N.of_nat (length s))). nia. }
      constructor; [destruct d; (reflexivity || discriminate) |].
      apply IH. nia.
    + intros H. inversion H as [| ? ? <- Hs]; subst.
      apply IH in Hs. rewrite Hs. simpl. lia.
Qed.

Lemma digits_from_value (fuel : nat) (n : N) (printed : list digit) :
  (n < 10 ^ N.of_nat (S fuel))%N ->
  int_of_digits (digits_from fuel n printed)
  = (n * 10 ^ N.of_nat (length printed) + int_of_digits printed)%N.
Proof.
  revert n printed. induction fuel as [| fuel IH]; intros n printed Hn.
  - cbn [digits_from]. rewrite int_of_digits_cons.
    change (10 ^ N.of_nat 1)%N with 10%N in Hn.
    rewrite N.mod_small by exact Hn. rewrite digit_of_value by exact Hn.
    reflexivity.
  - cbn [digits_from].
    pose proof (N.div_mod n 10) as Hdm.
    pose proof (N.mod_lt n 10) as Hlt.
    destruct (n / 10 =? 0)%N eqn:E.
    + apply N.eqb_eq in E. rewrite int_of_digits_cons.
      rewrite digit_of_value by lia. f_equal. f_equal. lia.
    + rewrite IH.
      * rewrite int_of_digits_cons, digit_of_value by lia.
        cbn [length]. rewrite Nat2N.inj_succ, N.pow_succ_r'. lia.
      * rewrite Nat2N.inj_succ, N.pow_succ_r' in Hn.
        apply N.Div0.div_lt_upper_bound; lia.
Qed.

(** The digits printed for a number read back as that number. *)
Lemma int_of_digits_of (n : N) : int_of_digits (digits_of n) = n.
Proof.
  unfold digits_of. rewrite digits_from_value.
  - change (int_of_digits []) with 0%N.
    change (N.of_nat (length (@nil digit))) with 0%N.
    rewrite N.pow_0_r. lia.
  - pose proof (N.size_gt n) as H.
    rewrite Nat2N.inj_succ, N2Nat.id, N.pow_succ_r'.
    assert (2 ^ N.size n <= 10 ^ N.size n)%N
      by (apply N.pow_le_mono_l; lia).
    pose proof (N.pow_nonzero 10 (N.size n)). lia.
Qed.

Lemma digits_from_nonempty (fuel : nat) (n : N) (printed : list digit) :
  digits_from fuel n printed <> [].
Proof.
  revert n printed. induction fuel as [| fuel IH]; intros n printed.
  - discriminate.
  - cbn [digits_from]. destruct (n / 10 =? 0)%N; [discriminate | apply IH].
Qed.


(** ** Thai words: what the speller builds *)

Lemma spelled_append (text word : string) :
  spelled text = true -> spelled (text +:+ word) = true.
Proof.
  destruct text as [| a [| b [| c rest]]]; try discriminate.
  intros H. exact H.
Qed.

Lemma spelled_nonempty (text : string) : spelled text = true -> nonempty text = true.
Proof. destruct text; [discriminate | reflexivity]. Qed.

Lemma spelled_not_zero_word (text : string) :
  spelled text = true -> String.eqb text "ศูนย์" = false.
Proof.
  intros H. apply String.eqb_neq. intros ->. vm_compute in H. discriminate.
Qed.

Lemma all_zero_int (number_str : list digit) :
  all_zero number_str = (int_of_digits number_str =? 0)%N.
Proof.
  destruct (int_of_digits number_str =? 0)%N eqn:E.
  - apply N.eqb_eq, int_of_digits_zero in E.
    unfold all_zero. apply forallb_forall. intros d Hd.
    rewrite Forall_forall in E. rewrite <- (E d); [reflexivity |].
    apply list_elem_of_In. exact Hd.
  - apply N.eqb_neq in E. destruct (all_zero number_str) eqn:A; [| reflexivity].
    exfalso. apply E. apply int_of_digits_zero.
    unfold all_zero in A. rewrite forallb_forall in A.
    apply Forall_forall. intros d Hd. apply list_elem_of_In in Hd.
    specialize (A d Hd). destruct d; (reflexivity || discriminate).
Qed.

(** One turn of the loop: it never raises while the position is below
    seven; a zero digit adds nothing and any other digit leaves a spelled
    text. *)
Lemma spell_digit_spec (len : nat) (result : string) (i : nat) (dg : digit) :
  (len - i - 1 <= 6)%nat ->
  result = EmptyString \/ spelled result = true ->
  exists text,
    spell_digit len result i dg = Some text
    /\ (dg = dig0 -> text = result)
    /\ (dg <> dig0 -> spelled text = true).
Proof.
  intros Hp Hr. unfold spell_digit.
  set (position := (len - i - 1)%nat) in *. clearbody position.
  destruct dg; cbn [digit_value Nat.eqb];
    try (exists result; split; [reflexivity |];
         split; [reflexivity | congruence]);
    (destruct position as [| [| [| [| [| [| [| position]]]]]]]; [.. | lia]);
    cbn [Nat.eqb andb]; try destruct (1 <? len)%nat;
    (eexists; split; [reflexivity |]; split; [discriminate |]; intros _;
     destruct Hr as [-> | Hr];
     [vm_compute; reflexivity | repeat apply spelled_append; exact Hr]).
Qed.

Lemma spell_digits_spec (len : nat) (rest : list digit) :
  forall (result : string) (i : nat),
    (i + length rest = len)%nat -> (len <= 7)%nat ->
    result = EmptyString \/ spelled result = true ->
    exists text,
      spell_digits len result i rest = Some text
      /\ (all_zero rest = true -> text = result)
      /\ (all_zero rest = false -> spelled text = true)
      /\ (spelled result = true -> spelled text = true).
Proof.
  induction rest as [| dg rest IH]; intros result i Hi Hl Hr.
  - exists result. repeat split; [discriminate | tauto].
  - cbn [length] in Hi.
    destruct (spell_digit_spec len result i dg) as (r & Hspell & Hz & Hnz);
      [lia | exact Hr |].
    cbn [spell_digits]. rewrite Hspell.
    assert (Hr' : r = EmptyString \/ spelled r = true).
    { destruct dg; try (right; apply Hnz; discriminate).
      rewrite Hz by reflexivity. exact Hr. }
    destruct (IH r (S i)) as (text & Htext & Hallz & Hnotz & Hkeep);
      [lia | exact Hl | exact Hr' |].
    exists text. split; [exact Htext |].
    unfold all_zero in *. cbn [forallb].
    destruct dg; cbn [digit_value Nat.eqb andb];
      try (split; [discriminate |]; split;
           [intros _ | intros _]; apply Hkeep; apply Hnz; discriminate).
    rewrite Hz in * by reflexivity. auto.
Qed.


(** [_convert_to_thai_num] with enough fuel: it returns, the empty text for
    digits that are all zero and a spelled text otherwise. *)
Lemma convert_fuel_spec (fuel : nat) :
  forall number_str : list digit,
    (length number_str <= 6 * fuel + 7)%nat ->
    exists text,
      convert_to_thai_num_fuel fuel number_str = Some text
      /\ (all_zero number_str = true -> text = EmptyString)
      /\ (all_zero number_str = false -> spelled text = true).
Proof.
  induction fuel as [| fuel IH]; intros s Hlen.
  - destruct s as [| d s]; [exists EmptyString; repeat split; discriminate |].
    cbn [convert_to_thai_num_fuel]. rewrite all_zero_int.
    destruct (int_of_digits (d :: s) =? 0)%N eqn:E.
    { exists EmptyString. repeat split. discriminate. }
    destruct (Nat.ltb_spec 7 (length (d :: s))) as [H7 | H7]; [lia |].
    destruct (spell_digits_spec (length (d :: s)) (d :: s) EmptyString 0)
      as (text & Ht & _ & Hs & _); [reflexivity | exact H7 | left; reflexivity |].
    exists text. split; [exact Ht |]. split; [discriminate |].
    intros _. apply Hs. rewrite all_zero_int, E. reflexivity.
  - destruct s as [| d s]; [exists EmptyString; repeat split; discriminate |].
    cbn [convert_to_thai_num_fuel]. rewrite all_zero_int.
    destruct (int_of_digits (d :: s) =? 0)%N eqn:E.
    { exists EmptyString. repeat split. discriminate. }
    destruct (Nat.ltb_spec 7 (length (d :: s))) as [H7 | H7].
    + destruct (IH (take (length (d :: s) - 6) (d :: s)))
        as (millions & Hm & Hmz & Hms).
      { rewrite length_take. lia. }
      destruct (IH (drop (length (d :: s) - 6) (d :: s)))
        as (below & Hb & _ & _).
      { rewrite length_drop. lia. }
      rewrite Hm, Hb. eexists. split; [reflexivity |].
      split; [discriminate |]. intros _.
      destruct (all_zero (take (length (d :: s) - 6) (d :: s))).
      * rewrite Hmz by reflexivity. reflexivity.
      * apply spelled_append, spelled_append, Hms. reflexivity.
    + destruct (spell_digits_spec (length (d :: s)) (d :: s) EmptyString 0)
        as (text & Ht & _ & Hs & _); [reflexivity | exact H7 | left; reflexivity |].
      exists text. split; [exact Ht |]. split; [discriminate |].
      intros _. apply Hs. rewrite all_zero_int, E. reflexivity.
Qed.

(** More fuel than enough changes nothing. *)
Lemma convert_fuel_enough (fuel : nat) :
  forall (fuel' : nat) (number_str : list digit),
    (length number_str <= 6 * fuel + 7)%nat ->
    (length number_str <= 6 * fuel' + 7)%nat ->
    convert_to_thai_num_fuel fuel number_str
    = convert_to_thai_num_fuel fuel' number_str.
Proof.
  induction fuel as [| fuel IH]; intros fuel' s H H'.
  - destruct s as [| d s], fuel'; try reflexivity.
    cbn [convert_to_thai_num_fuel].
    destruct (_ =? 0)%N; [reflexivity |].
    destruct (Nat.ltb_spec 7 (length (d :: s))); [lia | reflexivity].
  - destruct s as [| d s]; [destruct fuel'; reflexivity |].
    destruct fuel' as [| fuel'].
    + cbn [convert_to_thai_num_fuel].
      destruct (_ =? 0)%N; [reflexivity |].
      destruct (Nat.ltb_spec 7 (length (d :: s))); [lia | reflexivity].
    + cbn [convert_to_thai_num_fuel].
      destruct (_ =? 0)%N; [reflexivity |].
      destruct (Nat.ltb_spec 7 (length (d :: s))); [| reflexivity].
      rewrite (IH fuel' (take _ _)), (IH fuel' (drop _ _));
        rewrite ?length_take, ?length_drop; try lia.
      reflexivity.
Qed.

Lemma convert_to_thai_num_spec (number_str : list digit) :
  exists text,
    _convert_to_thai_num number_str = Some text
    /\ (all_zero number_str = true -> text = EmptyString)
    /\ (all_zero number_str = false -> spelled text = true).
Proof. apply convert_fuel_spec. lia. Qed.


(** The empty text for digits that read as zero, and otherwise a text that is
    neither empty nor the word for zero. *)
Lemma convert_to_thai_num_facts (number_str : list digit) :
  exists text,
    _convert_to_thai_num number_str = Some text
    /\ (text = EmptyString <-> int_of_digits number_str = 0%N)
    /\ text <> "ศูนย์"%string.
Proof.
  destruct (convert_to_thai_num_spec number_str) as (text & Ht & Hz & Hs).
  exists text. split; [exact Ht |].
  rewrite all_zero_int in Hz, Hs.
  destruct (int_of_digits number_str =? 0)%N eqn:E.
  - apply N.eqb_eq in E. rewrite Hz by reflexivity.
    split; [tauto | discriminate].
  - apply N.eqb_neq in E. specialize (Hs eq_refl). split.
    + split; [| tauto]. intros ->. discriminate.
    + apply String.eqb_neq, spelled_not_zero_word, Hs.
Qed.

(** X21. On a string of at most 309 digits, the longest that [bahttext]
    passes, [_convert_to_thai_num] does not fail: it returns the empty text
    exactly when the digits read as zero (no digit at all included), and
    otherwise a text that is not empty and is not the word for zero, so the
    comparison of the satang text with that word in [bahttext] can never
    fail. *)
Theorem convert_to_thai_num_text (number_str : list digit) :
  (length number_str <= longest_amount)%nat ->
  exists text,
    _convert_to_thai_num number_str = Some text
    /\ (text = EmptyString <-> int_of_digits number_str = 0%N)
    /\ text <> "ศูนย์"%string.
Proof. intros _. apply convert_to_thai_num_facts. Qed.

Lemma convert_to_thai_num_text_witness :
  _convert_to_thai_num [dig0; dig5] = Some "ห้า"%string
  /\ _convert_to_thai_num [dig0; dig0] = Some EmptyString.
Proof.
  destruct (convert_to_thai_num_text [dig0; dig5]) as (five & Hfive & _ & _);
    [unfold longest_amount; cbn; lia |].
  destruct (convert_to_thai_num_text [dig0; dig0]) as (none & Hnone & Hzero & _);
    [unfold longest_amount; cbn; lia |].
  split.
  - rewrite Hfive. vm_compute in Hfive. injection Hfive as <-. reflexivity.
  - rewrite Hnone. f_equal. apply Hzero. reflexivity.
Defined.

(** X22. A string of more than seven and at most 309 digits that does not
    read as zero is spelled as its digits above the last six, the word for
    million, and its last six digits, each part spelled by the same
    function. *)
Theorem convert_to_thai_num_millions (number_str : list digit) :
  (7 < length number_str <= longest_amount)%nat ->
  int_of_digits number_str <> 0%N ->
  exists millions below,
    _convert_to_thai_num (take (length number_str - 6) number_str) = Some millions
    /\ _convert_to_thai_num (drop (length number_str - 6) number_str) = Some below
    /\ _convert_to_thai_num number_str = Some ((millions +:+ "ล้าน") +:+ below).
Proof.
  intros [H7 _] Hnz.
  destruct (convert_to_thai_num_spec (take (length number_str - 6) number_str))
    as (millions & Hm & _).
  destruct (convert_to_thai_num_spec (drop (length number_str - 6) number_str))
    as (below & Hb & _).
  exists millions, below. split; [exact Hm |]. split; [exact Hb |].
  unfold _convert_to_thai_num in *.
  destruct number_str as [| d s]; [cbn in H7; lia |].
  set (n := d :: s) in *.
  assert (Hfuel : exists fuel, length n = S fuel)
    by (exists (length s); reflexivity).
  destruct Hfuel as [fuel Hfuel]. rewrite Hfuel at 1.
  subst n. cbn [convert_to_thai_num_fuel].
  apply N.eqb_neq in Hnz. rewrite Hnz.
  apply Nat.ltb_lt in H7. rewrite H7. apply Nat.ltb_lt in H7.
  rewrite (convert_fuel_enough fuel (length (take (length (d :: s) - 6) (d :: s)))),
    (convert_fuel_enough fuel (length (drop (length (d :: s) - 6) (d :: s))));
    rewrite ?length_take, ?length_drop; try lia.
  rewrite length_take, length_drop in *.
  rewrite Hm, Hb. reflexivity.
Qed.

Lemma convert_to_thai_num_millions_witness :
  _convert_to_thai_num [dig2; dig1; dig0; dig0; dig0; dig0; dig0; dig1]
  = Some "ยี่สิบเอ็ดล้านเอ็ด"%string.
Proof.
  destruct (convert_to_thai_num_millions [dig2; dig1; dig0; dig0; dig0; dig0; dig0; dig1])
    as (millions & below & Hm & Hb & ->).
  - unfold longest_amount. cbn. lia.
  - discriminate.
  - vm_compute in Hm, Hb. injection Hm as <-. injection Hb as <-. reflexivity.
Defined.


(** ** Worked calls of the speller *)

Example bahttext_quarter :
  bahttext (Number 0.25) = Some "ยี่สิบห้าสตางค์"%string.
Proof. vm_compute. reflexivity. Qed.

Example bahttext_eleven :
  bahttext (Number 11) = Some "สิบเอ็ดบาทถ้วน"%string.
Proof. vm_compute. reflexivity. Qed.

Example bahttext_million_and_one :
  bahttext (Number 1000001) = Some "หนึ่งล้านเอ็ดบาทถ้วน"%string.
Proof. vm_compute. reflexivity. Qed.

Example bahttext_twelve_million :
  bahttext (Number 12345678.25)
  = Some "สิบสองล้านสามแสนสี่หมื่นห้าพันหกร้อยเจ็ดสิบแปดบาทยี่สิบห้าสตางค์"%string.
Proof. vm_compute. reflexivity. Qed.

Example bahttext_zero : bahttext (Number 0) = Some "ศูนย์บาทถ้วน"%string.
Proof. reflexivity. Qed.

Example bahttext_tie_to_even :
  format_2f 0.125 = ([dig0], [dig1; dig2]) /\ format_2f 0.375 = ([dig0], [dig3; dig8]).
Proof. split; vm_compute; reflexivity. Qed.

(** ** An amount in words *)

Lemma round_half_even_bounds (x : Q) :
  (inject_Z (round_half_even x) - (1 # 2) <= x
   /\ x <= inject_Z (round_half_even x) + (1 # 2))%Q.
Proof.
  unfold round_half_even. cbv zeta.
  pose proof (Qfloor_le x) as Hlo. pose proof (Qlt_floor x) as Hhi.
  rewrite inject_Z_plus in Hhi. change (inject_Z 1) with 1%Q in Hhi.
  destruct (Qltb (x - inject_Z (Qfloor x)) (1 # 2)) eqn:E1.
  { apply Qltb_true in E1. lra. }
  apply Qltb_false in E1.
  destruct (Qltb (1 # 2) (x - inject_Z (Qfloor x))) eqn:E2.
  { rewrite inject_Z_plus. change (inject_Z 1) with 1%Q. lra. }
  apply Qltb_false in E2.
  destruct (Z.even (Qfloor x)).
  - lra.
  - rewrite inject_Z_plus. change (inject_Z 1) with 1%Q. lra.
Qed.

Lemma round_half_even_whole (x : Q) (z : Z) :
  (x == inject_Z z)%Q -> round_half_even x = z.
Proof.
  intros H. unfold round_half_even. cbv zeta.
  rewrite (Qfloor_comp _ _ H), Qfloor_Z.
  rewrite (Qltb_true_intro (x - inject_Z z) (1 # 2)) by lra. reflexivity.
Qed.

Lemma round_half_even_nonneg (x : Q) : (0 <= x)%Q -> 0 <= round_half_even x.
Proof.
  intros H. unfold round_half_even. cbv zeta.
  assert (0 <= Qfloor x).
  { change 0 with (Qfloor 0). apply Qfloor_resp_le. exact H. }
  destruct (Qltb _ _); [lia |]. destruct (Qltb _ _); [lia |].
  destruct (Z.even _); lia.
Qed.

Lemma satang_digits_value (satang : N) :
  (satang < 100)%N ->
  int_of_digits [digit_of (satang / 10); digit_of (satang mod 10)] = satang.
Proof.
  intros H. rewrite !int_of_digits_cons.
  pose proof (N.div_mod satang 10) as Hdm.
  pose proof (N.mod_lt satang 10) as Hlt.
  rewrite !digit_of_value by (try apply N.Div0.div_lt_upper_bound; lia).
  cbn [length]. change (int_of_digits []) with 0%N.
  change (10 ^ N.of_nat 1)%N with 10%N. change (10 ^ N.of_nat 0)%N with 1%N. lia.
Qed.

Lemma format_2f_parts (number : Q) :
  let hundredths := Z.to_N (round_half_even (number * 100)) in
  int_of_digits (fst (format_2f number)) = (hundredths / 100)%N
  /\ int_of_digits (snd (format_2f number)) = (hundredths mod 100)%N.
Proof.
  unfold format_2f. cbv zeta. cbn [fst snd].
  set (h := Z.to_N (round_half_even (number * 100))).
  split; [apply int_of_digits_of |].
  pose proof (N.mod_lt h 100) as Hlt.
  replace (h mod 10)%N with ((h mod 100) mod 10)%N.
  - apply satang_digits_value. lia.
  - change 100%N with (10 * 10)%N. rewrite N.Div0.mod_mul_r.
    rewrite (N.mul_comm 10 (_ mod 10)), N.Div0.mod_add.
    apply N.Div0.mod_mod.
Qed.

Lemma nonempty_false (text : string) : nonempty text = false <-> text = EmptyString.
Proof. destruct text; split; (reflexivity || discriminate). Qed.

(** The body of [bahttext] on a number that is not zero. *)
Lemma bahttext_nonneg_words (number : Q) :
  ~ (number == 0)%Q ->
  let hundredths := Z.to_N (round_half_even (number * 100)) in
  exists baht_text satang_text,
    _convert_to_thai_num (fst (format_2f number)) = Some baht_text
    /\ _convert_to_thai_num (snd (format_2f number)) = Some satang_text
    /\ (baht_text = EmptyString <-> (hundredths / 100 = 0)%N)
    /\ (satang_text = EmptyString <-> (hundredths mod 100 = 0)%N)
    /\ bahttext_nonneg number
       = Some ((if (hundredths / 100 =? 0)%N then EmptyString
                else baht_text +:+ "บาท")
               +:+ (if (hundredths mod 100 =? 0)%N then "ถ้วน"
                    else satang_text +:+ "สตางค์")).
Proof.
  intros Hnz hundredths.
  destruct (format_2f_parts number) as [Hb Hs]. fold hundredths in Hb, Hs.
  destruct (convert_to_thai_num_facts (fst (format_2f number)))
    as (baht_text & Hbt & Hbe & _).
  destruct (convert_to_thai_num_facts (snd (format_2f number)))
    as (satang_text & Hst & Hse & Hsz).
  rewrite Hb in Hbe. rewrite Hs in Hse.
  exists baht_text, satang_text.
  split; [exact Hbt |]. split; [exact Hst |].
  split; [exact Hbe |]. split; [exact Hse |].
  unfold bahttext_nonneg.
  destruct (Qeq_bool number 0) eqn:E; [apply Qeq_bool_iff in E; contradiction |].
  destruct (format_2f number) as [baht_part satang_part].
  cbn [fst snd] in Hbt, Hst. rewrite Hbt, Hst.
  apply String.eqb_neq in Hsz. rewrite Hsz. cbn [negb]. rewrite andb_true_r.
  f_equal.
  destruct (N.eqb_spec (hundredths / 100) 0) as [Eb | Eb];
    destruct (N.eqb_spec (hundredths mod 100) 0) as [Es | Es].
  - apply Hbe in Eb. apply Hse in Es. subst. reflexivity.
  - apply Hbe in Eb. subst baht_text.
    destruct (nonempty satang_text) eqn:N; [reflexivity |].
    apply nonempty_false, Hse in N. contradiction.
  - apply Hse in Es. subst satang_text.
    destruct (nonempty baht_text) eqn:N; [reflexivity |].
    apply nonempty_false, Hbe in N. contradiction.
  - destruct (nonempty baht_text) eqn:N;
      [| apply nonempty_false, Hbe in N; contradiction].
    destruct (nonempty satang_text) eqn:N';
      [| apply nonempty_false, Hse in N'; contradiction].
    reflexivity.
Qed.

(** [bahttext] on a positive number: the guards pass and the body runs. *)
Lemma bahttext_positive (number : Q) :
  (0 < number)%Q ->
  let hundredths := Z.to_N (round_half_even (number * 100)) in
  exists baht_text satang_text,
    _convert_to_thai_num (fst (format_2f number)) = Some baht_text
    /\ _convert_to_thai_num (snd (format_2f number)) = Some satang_text
    /\ (baht_text = EmptyString <-> (hundredths / 100 = 0)%N)
    /\ (satang_text = EmptyString <-> (hundredths mod 100 = 0)%N)
    /\ bahttext (Number number)
       = Some ((if (hundredths / 100 =? 0)%N then EmptyString
                else baht_text +:+ "บาท")
               +:+ (if (hundredths mod 100 =? 0)%N then "ถ้วน"
                    else satang_text +:+ "สตางค์")).
Proof.
  intros Hpos hundredths. unfold bahttext.
  rewrite (Qltb_false_intro number 0) by lra.
  apply bahttext_nonneg_words. lra.
Qed.

(** X24. For a positive amount that is a float, or an [int] with the value
    of one, rounded to [hundredths] satang, [bahttext] does not fail and
    returns the baht in words followed by the baht word when there is at
    least one baht, then the satang in words followed by the satang word
    when the satang are not zero and the word for "exactly" when they are;
    the text of a part is empty exactly when the part is zero. *)
Theorem bahttext_words (number : Q) :
  binary64 number -> (0 < number)%Q ->
  let hundredths := Z.to_N (round_half_even (number * 100)) in
  exists baht_text satang_text,
    _convert_to_thai_num (fst (format_2f number)) = Some baht_text
    /\ _convert_to_thai_num (snd (format_2f number)) = Some satang_text
    /\ (baht_text = EmptyString <-> (hundredths / 100 = 0)%N)
    /\ (satang_text = EmptyString <-> (hundredths mod 100 = 0)%N)
    /\ bahttext (Number number)
       = Some ((if (hundredths / 100 =? 0)%N then EmptyString
                else baht_text +:+ "บาท")
               +:+ (if (hundredths mod 100 =? 0)%N then "ถ้วน"
                    else satang_text +:+ "สตางค์")).
Proof. intros _. apply bahttext_positive. Qed.

Lemma bahttext_words_witness :
  bahttext (Number 120.5) = Some "หนึ่งร้อยยี่สิบบาทห้าสิบสตางค์"%string.
Proof.
  destruct (bahttext_words 120.5) as (b & s & Hb & Hs & _ & _ & ->).
  { exists 241, (-1). split; [reflexivity |].
    split; [split; discriminate | reflexivity]. }
  { reflexivity. }
  vm_compute in Hb, Hs. injection Hb as <-. injection Hs as <-. reflexivity.
Defined.

(** X25. An amount that is positive but rounds to no satang at all, that is
    an amount of at most half a satang, is put in words as the single word
    for "exactly", with no number and no currency. *)
Theorem bahttext_below_half_satang (number : Q) :
  (0 < number)%Q -> (number <= 1 # 200)%Q ->
  bahttext (Number number) = Some "ถ้วน"%string.
Proof.
  intros Hpos Hsmall.
  assert (Hr : round_half_even (number * 100) = 0).
  { unfold round_half_even. cbv zeta.
    assert (Hf : Qfloor (number * 100) = 0).
    { pose proof (Qfloor_le (number * 100)) as Hlo.
      pose proof (Qlt_floor (number * 100)) as Hhi.
      assert (H1 : (inject_Z (Qfloor (number * 100)) < inject_Z 1)%Q)
        by (change (inject_Z 1) with 1%Q; lra).
      assert (H2 : (inject_Z (-1) < inject_Z (Qfloor (number * 100)))%Q).
      { rewrite inject_Z_plus in Hhi. change (inject_Z 1) with 1%Q in Hhi.
        change (inject_Z (-1)) with (-1 # 1)%Q. lra. }
      rewrite <- Zlt_Qlt in H1, H2. lia. }
    rewrite Hf. change (inject_Z 0) with 0%Q.
    destruct (Qltb (number * 100 - 0) (1 # 2)); [reflexivity |].
    rewrite (Qltb_false_intro (1 # 2) (number * 100 - 0)) by lra.
    reflexivity. }
  destruct (bahttext_positive number Hpos) as (b & s & _ & _ & _ & _ & ->).
  rewrite Hr. reflexivity.
Qed.

Lemma bahttext_below_half_satang_witness :
  bahttext (Number (1 # 256)) = Some "ถ้วน"%string.
Proof. apply bahttext_below_half_satang; [reflexivity | discriminate]. Defined.

(** X26. A whole number of baht, from one to [2 ^ 53], is put in words as
    its digits in words followed by the baht word and the word for
    "exactly". *)
Theorem bahttext_whole_baht (baht : positive) :
  Z.pos baht <= 2 ^ 53 ->
  exists baht_text,
    _convert_to_thai_num (digits_of (N.pos baht)) = Some baht_text
    /\ baht_text <> EmptyString
    /\ bahttext (Number (inject_Z (Z.pos baht)))
       = Some ((baht_text +:+ "บาท") +:+ "ถ้วน").
Proof.
  intros _.
  assert (Hpos : (0 < inject_Z (Z.pos baht))%Q) by reflexivity.
  assert (Hr : round_half_even (inject_Z (Z.pos baht) * 100) = Z.pos baht * 100).
  { apply round_half_even_whole. rewrite inject_Z_mult. reflexivity. }
  destruct (bahttext_positive _ Hpos) as (b & s & Hb & _ & Hbe & _ & Htext).
  rewrite Hr in Hbe, Htext.
  assert (Hdiv : (Z.to_N (Z.pos baht * 100) / 100 = N.pos baht)%N).
  { change (Z.to_N (Z.pos baht * 100)) with (N.pos baht * 100)%N.
    apply N.div_mul. discriminate. }
  assert (Hmod : (Z.to_N (Z.pos baht * 100) mod 100 = 0)%N).
  { change (Z.to_N (Z.pos baht * 100)) with (N.pos baht * 100)%N.
    apply N.Div0.mod_mul. }
  rewrite Hdiv in Hbe, Htext. rewrite Hmod in Htext.
  exists b. split.
  - unfold format_2f in Hb. cbn [fst] in Hb. rewrite Hr, Hdiv in Hb. exact Hb.
  - split; [intros H; apply Hbe in H; discriminate | exact Htext].
Qed.

Lemma bahttext_whole_baht_witness :
  bahttext (Number 21) = Some "ยี่สิบเอ็ดบาทถ้วน"%string.
Proof.
  destruct (bahttext_whole_baht 21) as (text & Htext & _ & Hwords);
    [discriminate |].
  vm_compute in Htext. injection Htext as <-. exact Hwords.
Defined.

(** X27. A negative amount is put in words as the word for "minus" followed
    by the words of the amount without its sign. *)
Theorem bahttext_negative (number : Q) :
  (0 < number)%Q ->
  exists text,
    bahttext (Number number) = Some text
    /\ bahttext (Number (- number)) = Some ("ลบ" +:+ text).
Proof.
  intros Hpos.
  destruct (bahttext_positive number Hpos) as (b & s & _ & _ & _ & _ & Htext).
  eexists. split; [exact Htext |].
  unfold bahttext in *.
  rewrite (Qltb_true_intro (- number) 0) by lra.
  rewrite (Qltb_false_intro number 0) in Htext by lra.
  replace (- - number)%Q with number
    by (destruct number; unfold Qopp; cbn; rewrite Z.opp_involutive; reflexivity).
  rewrite Htext. reflexivity.
Qed.

Lemma bahttext_negative_witness :
  bahttext (Number (-21)) = Some "ลบยี่สิบเอ็ดบาทถ้วน"%string.
Proof.
  destruct (bahttext_negative 21) as (text & Htext & Hneg); [reflexivity |].
  vm_compute in Htext. injection Htext as <-. exact Hneg.
Defined.


(** ** The certificate in lieu of receipts *)

Lemma certificate_transport_fold
    (end_time : string) (transportation : list TransportItem) :
  forall items : list CertificateItem,
    map cert_amount
      (fold_left
         (fun items trans =>
            if String.eqb (item_type trans) "taxi"
               || String.eqb (item_type trans) "motorcycle"
            then
              items
              ++ [{| cert_date := end_time;
                     cert_description :=
                       CertifiedTransport
                         (default (item_type trans) (item_type_display trans))
                         (default EmptyString (item_route_desc trans));
                     cert_amount := item_reimbursable_amount trans;
                     cert_remark := EmptyString |}]
            else items)
         transportation items)
    = map cert_amount items
      ++ map item_reimbursable_amount (List.filter without_receipt transportation).
Proof.
  induction transportation as [| trans rest IH]; intros items.
  - cbn. rewrite app_nil_r. reflexivity.
  - cbn [fold_left List.filter]. rewrite IH. unfold without_receipt.
    destruct (String.eqb (item_type trans) "taxi"
              || String.eqb (item_type trans) "motorcycle").
    + rewrite map_app. cbn [map]. rewrite <- app_assoc. reflexivity.
    + reflexivity.
Qed.

(** X28. The certificate lists, in their order, the transport entries of
    type "taxi" or "motorcycle" and no other entry, then the accommodation
    when its type is "lump_sum"; every amount is copied unchanged.  So it is
    empty, and the form is left out, exactly when there is no such entry and
    the accommodation is not a lump sum. *)
Theorem certificate_amounts (data : TransactionData) :
  let items := _get_no_receipt_items data in
  let accom := expenses_accommodation data in
  map cert_amount items
  = map item_reimbursable_amount
      (List.filter without_receipt (expenses_transportation data))
    ++ (if String.eqb (accom_type accom) "lump_sum"
        then [accom_reimbursable_amount accom] else [])
  /\ Forall (fun item => cert_date item = trip_end_time data) items
  /\ (items = []
      <-> List.filter without_receipt (expenses_transportation data) = []
          /\ accom_type accom <> "lump_sum"%string).
Proof.
  intros items accom.
  assert (Hamounts :
            map cert_amount items
            = map item_reimbursable_amount
                (List.filter without_receipt (expenses_transportation data))
              ++ (if String.eqb (accom_type accom) "lump_sum"
                  then [accom_reimbursable_amount accom] else [])).
  { subst items accom. unfold _get_no_receipt_items. cbv zeta.
    destruct (String.eqb (accom_type (expenses_accommodation data)) "lump_sum").
    - rewrite map_app, certificate_transport_fold. reflexivity.
    - rewrite certificate_transport_fold, app_nil_r. reflexivity. }
  split; [exact Hamounts |]. split.
  - subst items accom. unfold _get_no_receipt_items. cbv zeta.
    assert (Hfold : forall l acc,
               Forall (fun item => cert_date item = trip_end_time data) acc ->
               Forall (fun item => cert_date item = trip_end_time data)
                 (fold_left
                    (fun items trans =>
                       if String.eqb (item_type trans) "taxi"
                          || String.eqb (item_type trans) "motorcycle"
                       then
                         items
                         ++ [{| cert_date := trip_end_time data;
                                cert_description :=
                                  CertifiedTransport
                                    (default (item_type trans) (item_type_display trans))
                                    (default EmptyString (item_route_desc trans));
                                cert_amount := item_reimbursable_amount trans;
                                cert_remark := EmptyString |}]
                       else items) l acc)).
    { induction l as [| trans l IH]; intros acc Hacc; [exact Hacc |].
      cbn [fold_left]. apply IH.
      destruct (_ || _); [| exact Hacc].
      apply Forall_app. split; [exact Hacc |]. repeat constructor. }
    destruct (String.eqb _ "lump_sum").
    + apply Forall_app. split; [apply Hfold; constructor | repeat constructor].
    + apply Hfold. constructor.
  - split.
    + intros Hnil. rewrite Hnil in Hamounts. cbn [map] in Hamounts.
      symmetry in Hamounts. apply app_eq_nil in Hamounts as [Ht Ha].
      split.
      * destruct (List.filter _ _); [reflexivity | discriminate].
      * destruct (String.eqb_spec (accom_type accom) "lump_sum");
          [discriminate | assumption].
    + intros [Ht Ha]. rewrite Ht in Hamounts.
      apply String.eqb_neq in Ha. rewrite Ha in Hamounts.
      destruct items; [reflexivity | discriminate].
Qed.

Lemma certificate_stays (data : TransactionData) :
  List.filter certifies_stay (_get_no_receipt_items data)
  = if String.eqb (accom_type (expenses_accommodation data)) "lump_sum"
    then [{| cert_date := trip_end_time data;
             cert_description :=
               CertifiedLumpSumStay (accom_nights (expenses_accommodation data));
             cert_amount := accom_reimbursable_amount (expenses_accommodation data);
             cert_remark := EmptyString |}]
    else [].
Proof.
  unfold _get_no_receipt_items. cbv zeta.
  assert (Hfold : forall l acc,
             List.filter certifies_stay
               (fold_left
                  (fun items trans =>
                     if String.eqb (item_type trans) "taxi"
                        || String.eqb (item_type trans) "motorcycle"
                     then
                       items
                       ++ [{| cert_date := trip_end_time data;
                              cert_description :=
                                CertifiedTransport
                                  (default (item_type trans) (item_type_display trans))
                                  (default EmptyString (item_route_desc trans));
                              cert_amount := item_reimbursable_amount trans;
                              cert_remark := EmptyString |}]
                     else items) l acc)
             = List.filter certifies_stay acc).
  { induction l as [| trans l IH]; intros acc; [reflexivity |].
    cbn [fold_left]. rewrite IH.
    destruct (_ || _); [| reflexivity].
    rewrite List.filter_app. cbn. apply app_nil_r. }
  destruct (String.eqb _ "lump_sum").
  - rewrite List.filter_app, Hfold. reflexivity.
  - rewrite Hfold. reflexivity.
Qed.

(** X29. With the accommodation computed by [validate_accommodation], the
    stay is certified exactly when the call was not a vehicle sleep and its
    method was "lump_sum"; it is then certified once, for the nights of the
    call and with the reimbursable amount of the result, copied unchanged.
    An actual-cost stay and a night aboard a vehicle are never certified. *)
Theorem certificate_of_accommodation
    (end_time : string) (transportation : list TransportItem)
    (c_level expense_type : string) (nights : Z) (actual_cost : Q)
    (room_type : string) (is_vehicle_sleep : bool) (manual_rate : Q)
    (trip_type training_venue : string) :
  exists accom,
    validate_accommodation c_level expense_type nights actual_cost room_type
      is_vehicle_sleep manual_rate trip_type training_venue = Ok accom
    /\ let stays :=
         List.filter certifies_stay
           (_get_no_receipt_items
              {| trip_end_time := end_time;
                 expenses_transportation := transportation;
                 expenses_accommodation := accom |}) in
       if negb is_vehicle_sleep && String.eqb expense_type "lump_sum"
       then
         map cert_description stays = [CertifiedLumpSumStay nights]
         /\ map cert_amount stays = [accom_reimbursable_amount accom]
         /\ accom_type accom = "lump_sum"%string
       else stays = [].
Proof.
  eval_accommodation.
  destruct is_vehicle_sleep; cbn [negb andb].
  { eexists. split; [reflexivity |]. cbv zeta. rewrite certificate_stays.
    reflexivity. }
  destruct (String.eqb trip_type "general");
    [| destruct (String.eqb training_venue "state")];
    destruct (String.eqb expense_type "lump_sum");
    (eexists; split; [reflexivity |]);
    cbv zeta; rewrite certificate_stays; cbn;
    try reflexivity;
    repeat split.
Qed.

(** ** The invariant on amounts *)

(** A call that is not a vehicle sleep and whose method is not "lump_sum"
    returns a result of type "actual" that carries the total ceiling, the
    ceiling of its path times the nights, and pays the smaller of the cost
    and that ceiling. *)
Lemma accommodation_actual_ceiling
    (c_level expense_type : string) (nights : Z) (actual_cost : Q)
    (room_type : string) (manual_rate : Q) (trip_type training_venue : string)
    (res : AccomResult) :
  String.eqb expense_type "lump_sum" = false ->
  validate_accommodation c_level expense_type nights actual_cost room_type
    false manual_rate trip_type training_venue = Ok res ->
  let ceiling :=
    if String.eqb trip_type "general" || String.eqb training_venue "state"
    then general_ceiling_of c_level room_type
    else private_ceiling_of c_level room_type in
  accom_type res = "actual"%string
  /\ accom_total_ceiling res = Some (ceiling * nights)
  /\ accom_reimbursable_amount res
     = Py.min actual_cost (inject_Z (ceiling * nights)).
Proof.
  intros He. eval_accommodation. rewrite He. simpl.
  destruct (String.eqb trip_type "general");
    [| destruct (String.eqb training_venue "state")];
    simpl; intros [= <-]; repeat split.
Qed.

(** C9. With [nights], [actual_cost], [manual_rate], the distance, the fare
    paid and the counts not negative and a window that does not end before it
    starts, every engine that returns an amount returns one that is not
    negative: [validate_accommodation] (which never raises),
    [calculate_transportation], [validate_taxi], [calculate_per_diem] and
    [calculate_training_meal_allowance].  Every accommodation call that is
    not a vehicle sleep and whose method is not "lump_sum" returns a result
    of type "actual" with a [total_ceiling], the ceiling of its path (the
    general table on a general trip and at a state venue, the private table
    otherwise) times the nights, and its reimbursable amount does not exceed
    that ceiling; more generally, wherever a result carries a
    [total_ceiling], which every result of type "actual" does, the amount
    does not exceed it; nor does a taxi fare exceed the limit of its
    route. *)
Theorem amounts_within_bounds
    (c_level expense_type room_type trip_type training_venue : string)
    (is_vehicle_sleep : bool) (nights : Z) (actual_cost manual_rate : Q)
    (vehicle_type : string) (distance_km : Q)
    (route_type : string) (fare_paid : Q)
    (start_time end_time : datetime) (is_overnight : bool) (provided_meals : Z)
    (g : Grade) (v : Venue) (meal_count snack_count : Z) :
  0 <= nights -> (0 <= actual_cost)%Q -> (0 <= manual_rate)%Q ->
  (0 <= distance_km)%Q -> (0 <= fare_paid)%Q ->
  start_time <= end_time -> 0 <= provided_meals ->
  0 <= meal_count -> 0 <= snack_count ->
  (exists res,
     validate_accommodation c_level expense_type nights actual_cost room_type
       is_vehicle_sleep manual_rate trip_type training_venue = Ok res
     /\ (0 <= accom_reimbursable_amount res)%Q
     /\ (forall total_ceiling,
           accom_total_ceiling res = Some total_ceiling ->
           (accom_reimbursable_amount res <= inject_Z total_ceiling)%Q)
     /\ (accom_type res = "actual"%string -> is_Some (accom_total_ceiling res))
     /\ (is_vehicle_sleep = false ->
         String.eqb expense_type "lump_sum" = false ->
         let ceiling :=
           if String.eqb trip_type "general" || String.eqb training_venue "state"
           then general_ceiling_of c_level room_type
           else private_ceiling_of c_level room_type in
         accom_type res = "actual"%string
         /\ accom_total_ceiling res = Some (ceiling * nights)
         /\ (accom_reimbursable_amount res <= inject_Z (ceiling * nights))%Q
         /\ (accom_reimbursable_amount res <= actual_cost)%Q))
  /\ (0 <= transport_reimbursable_amount
             (calculate_transportation vehicle_type distance_km))%Q
  /\ (0 <= taxi_reimbursable_amount (validate_taxi route_type fare_paid))%Q
  /\ (forall limit,
        taxi_limit (validate_taxi route_type fare_paid) = LimitAmount limit ->
        (taxi_reimbursable_amount (validate_taxi route_type fare_paid) <= limit)%Q)
  /\ (0 <= net_amount
             (calculate_per_diem start_time end_time is_overnight c_level
                provided_meals))%Q
  /\ (exists res,
        calculate_training_meal_allowance (grade_key g) (venue_key v)
          meal_count snack_count = Ok res
        /\ 0 <= grand_total res).
Proof.
  intros Hn Ha Hm Hd Hf Hw Hp Hmc Hsc.
  split.
  { destruct (accommodation_bounds c_level expense_type nights actual_cost
                room_type is_vehicle_sleep manual_rate trip_type training_venue
                Hn Ha Hm) as (res & Hres & Hlo & Hhi & Htype).
    exists res. split; [exact Hres |]. split; [exact Hlo |].
    split; [exact Hhi |]. split; [exact Htype |].
    intros -> He ceiling.
    destruct (accommodation_actual_ceiling _ _ _ _ _ _ _ _ _ He Hres)
      as (Hactual & Hceiling & Hamount).
    fold ceiling in Hceiling, Hamount.
    split; [exact Hactual |]. split; [exact Hceiling |].
    rewrite Hamount. split; [apply py_min_le_r | apply py_min_le_l]. }
  split; [apply transportation_nonneg; assumption |].
  split; [apply validate_taxi_bounds; assumption |].
  split; [apply validate_taxi_bounds; assumption |].
  split; [apply per_diem_net_nonneg; assumption |].
  apply training_meal_total_nonneg; assumption.
Qed.

Lemma amounts_within_bounds_witness :
  exists res,
    validate_accommodation "C1-C8" "actual" 2 3500 "single" false 0
      "general" "private" = Ok res
    /\ accom_total_ceiling res = Some 3000
    /\ (0 <= accom_reimbursable_amount res <= 3000)%Q.
Proof.
  destruct (amounts_within_bounds
              "C1-C8" "actual" "single" "general" "private" false 2 3500 0
              "private_car" 12.5 "cross_bkk" 750
              0 (7 * hour_us) false 1 Junior StateFacility 2 1)
    as ((res & Hres & Hlo & _ & _ & Hlink) & _);
    try discriminate.
  destruct (Hlink eq_refl eq_refl) as (_ & Hceiling & Hhi & _).
  exists res. split; [exact Hres |]. split; [exact Hceiling |].
  split; [exact Hlo | exact Hhi].
Defined.
